(** * GenAI Security Maturity Explorer: the derived-metrics engine of app.py

    A shallow embedding of the numeric part of [src/app.py]: the three
    per-year score tables, the year lookup, the heatmap with its what-if
    governance adjustment, the gap analysis, the radar chart and the
    statistics of the [update_charts] callback.

    Python floats are IEEE 754 binary64 numbers, modelled by Rocq's primitive
    [float] with the same operations.  Python lists are mutable objects: the
    rows of the score tables live in a heap and are addressed by reference,
    so that copying a row and assigning into it are distinct from assigning
    into the stored row.  A Python function is a computation over that heap
    which returns or raises.

    Of a figure, the data computed from the scores is kept (the matrix, the
    hover levels and labels, the gaps and their colours, the polygon of the
    radar chart); colours of the theme, the [dark_mode] argument, layout and
    the formatting of numbers as text are left out. *)

From Stdlib Require Import ZArith Floats Lia.
From stdpp Require Import base option list gmap strings.

Set Warnings "-inexact-float".

(* ===================================================================== *)
(** ** Python values used by the engine *)
(* ===================================================================== *)

(** [min(a, b)] of Python returns [b] when [b < a] and [a] otherwise. *)
Definition py_min (a b : float) : float :=
  if (b <? a)%float then b else a.

(** The exceptions that the operations of the engine can raise. *)
Inductive exn : Type :=
  | KeyError (key : string)
  | IndexError
  | OverflowError.

(** An operation returns a value or raises. *)
Inductive outcome (A : Type) : Type :=
  | Ret (a : A)
  | Raise (e : exn).
Arguments Ret {A} a.
Arguments Raise {A} e.

(** Python converts the [int] operand of a mixed [int * float] product to the
    nearest double (ties to even) and raises [OverflowError] when the integer
    is too large for a double. *)
Definition float_of_int (n : Z) : outcome float :=
  let f := SF2Prim (binary_normalize prec emax n 0 false) in
  if is_infinity f then Raise OverflowError else Ret f.

(** [numpy.mean] of a one-dimensional sequence of doubles: the sum of the
    elements divided by their count.  For sequences this short numpy adds
    from left to right; on the rows and columns of the tables every partial
    sum is exact, so the order of the additions does not show. *)
Definition np_sum (l : list float) : float :=
  fold_left (fun acc x => (acc + x)%float) l 0%float.

Definition np_mean (l : list float) : float :=
  (np_sum l / of_uint63 (Uint63.of_Z (Z.of_nat (length l))))%float.

(* ===================================================================== *)
(** ** Constants of the data section *)
(* ===================================================================== *)

Definition THREAT_CATEGORIES : list string :=
  ["Prompt Injection"; "Autonomy Harms"; "Political Integrity"; "Privacy"]%string.

Definition DIMENSIONS : list string :=
  ["Threat Maturity"; "Technical Controls"; "Governance Enforcement";
   "Stakeholder Protections"]%string.

(** [get_level_description], lines 279-290. *)
Definition get_level_description (level : float) : string :=
  if (level <? 0.5)%float then "Non-existent"
  else if (level <? 1.5)%float then "Initial/Ad-hoc"
  else if (level <? 2.5)%float then "Developing"
  else if (level <? 3.5)%float then "Defined"
  else "Managed/Mature".

(** The colour of one bar of the gap chart, line 481:
    ['#d73027' if g > 2.5 else '#fc8d59' if g > 2 else '#fee08b' if g > 1.5
     else '#d9ef8b'].  [g > c] is [c < g]; the [int] 2 compares as 2.0. *)
Definition gap_color (g : float) : string :=
  if (2.5 <? g)%float then "#d73027"
  else if (2 <? g)%float then "#fc8d59"
  else if (1.5 <? g)%float then "#fee08b"
  else "#d9ef8b".

(* ===================================================================== *)
(** ** The heap of list objects and the monad of engine computations *)
(* ===================================================================== *)

(** A Python list is an object with identity.  The heap is the sequence of
    all list objects created so far; a reference is an index into it, and a
    new object is appended at the end.  Objects are never freed. *)
Abbreviation ref := nat (only parsing).
Abbreviation heap := (list (list float)) (only parsing).

(** A computation reads and updates the heap and either returns a value or
    raises.  [Stuck] marks the use of a reference to no object, which no
    Python program can produce. *)
Inductive result (A : Type) : Type :=
  | Done (o : outcome A)
  | Stuck.
Arguments Done {A} o.
Arguments Stuck {A}.

Definition M (A : Type) : Type := heap → result A * heap.

#[global] Instance M_ret : MRet M := λ A a h, (Done (Ret a), h).

#[global] Instance M_bind : MBind M := λ A B f m h,
  match m h with
  | (Done (Ret a), h') => f a h'
  | (Done (Raise e), h') => (Done (Raise e), h')
  | (Stuck, h') => (Stuck, h')
  end.

Definition raise {A : Type} (e : exn) : M A := λ h, (Done (Raise e), h).

Definition lift {A : Type} (o : outcome A) : M A := λ h, (Done o, h).

(** [d[k]] on a dict. *)
Definition dict_getitem (d : gmap string ref) (k : string) : M ref :=
  match d !! k with
  | Some r => mret r
  | None => raise (KeyError k)
  end.

(** [l.copy()]: a new list object with the same elements. *)
Definition list_copy (r : ref) : M ref := λ h,
  match h !! r with
  | Some l => (Done (Ret (length h)), h ++ [l])
  | None => (Stuck, h)
  end.

(** [l[i]] for a non-negative literal index. *)
Definition list_getitem (r : ref) (i : nat) : M float := λ h,
  match h !! r with
  | Some l =>
      match l !! i with
      | Some v => (Done (Ret v), h)
      | None => (Done (Raise IndexError), h)
      end
  | None => (Stuck, h)
  end.

(** [l[i] = v]: assignment into the object itself. *)
Definition list_setitem (r : ref) (i : nat) (v : float) : M unit := λ h,
  match h !! r with
  | Some l =>
      if decide (i < length l)
      then (Done (Ret tt), <[r := <[i := v]> l]> h)
      else (Done (Raise IndexError), h)
  | None => (Stuck, h)
  end.

(** The elements of a list object, as read when a new sequence is built from
    it ([l[k:]], [l + [x]], or the data of a figure).  The new sequence is
    not assigned into afterwards and is kept as a value. *)
Definition list_values (r : ref) : M (list float) := λ h,
  match h !! r with
  | Some l => (Done (Ret l), h)
  | None => (Stuck, h)
  end.

Definition list_slice_from (r : ref) (k : nat) : M (list float) :=
  l ← list_values r; mret (drop k l).

(** [n * x] for an [int] [n] and a [float] [x]. *)
Definition int_mul_float (n : Z) (x : float) : M float :=
  f ← lift (float_of_int n); mret (f * x)%float.

(** [enumerate(l)]. *)
Definition enumerate {A : Type} (l : list A) : list (nat * A) := imap pair l.

(** A computation [grows] the heap when every object that exists before it
    is unchanged after it: it may only add objects. *)
Definition grows {A : Type} (m : M A) : Prop :=
  ∀ h, h `prefix_of` (m h).2.

(** A computation is [cell_local] at [h] when, run on [h] extended by one
    object, it leaves [h] alone and changes at most that object. *)
Definition cell_local {A : Type} (h : heap) (m : M A) : Prop :=
  ∀ l, ∃ o l', m (h ++ [l]) = (o, h ++ [l']).

(* ===================================================================== *)
(** ** The score tables, lines 40-60 *)
(* ===================================================================== *)

(** The twelve rows are the first twelve objects of the heap at start-up, in
    the order the module creates them; each dict maps a category to the
    reference of its row.  No statement of the program assigns into a dict,
    so the dicts themselves are kept as values. *)
Definition ROWS_2025 : list (list float) :=
  [ [4.0; 2.5; 2.0; 0.5];     (* Prompt Injection *)
    [4.0; 2.0; 2.0; 0.5];     (* Autonomy Harms *)
    [4.0; 1.0; 0.5; 0.5];     (* Political Integrity *)
    [4.0; 2.0; 2.0; 2.0] ]%float.   (* Privacy *)

Definition ROWS_2026 : list (list float) :=
  [ [4.0; 3.0; 2.5; 1.0];
    [4.0; 2.5; 2.5; 1.0];
    [4.0; 2.0; 1.5; 1.0];
    [4.0; 2.5; 2.5; 2.5] ]%float.

Definition ROWS_2027 : list (list float) :=
  [ [4.0; 3.5; 3.0; 2.0];
    [4.0; 3.0; 3.0; 1.5];
    [4.0; 2.5; 2.5; 1.5];
    [4.0; 3.0; 3.0; 3.0] ]%float.

Definition initial_heap : heap := ROWS_2025 ++ ROWS_2026 ++ ROWS_2027.

Definition MATURITY_DATA_2025 : gmap string ref :=
  {[ "Prompt Injection" := 0; "Autonomy Harms" := 1;
     "Political Integrity" := 2; "Privacy" := 3 ]}.

Definition MATURITY_DATA_2026 : gmap string ref :=
  {[ "Prompt Injection" := 4; "Autonomy Harms" := 5;
     "Political Integrity" := 6; "Privacy" := 7 ]}.

Definition MATURITY_DATA_2027 : gmap string ref :=
  {[ "Prompt Injection" := 8; "Autonomy Harms" := 9;
     "Political Integrity" := 10; "Privacy" := 11 ]}.

(** [get_maturity_data], lines 319-327. *)
Definition get_maturity_data (year : string) : gmap string ref :=
  if decide (year = "2025") then MATURITY_DATA_2025
  else if decide (year = "2026") then MATURITY_DATA_2026
  else if decide (year = "2027") then MATURITY_DATA_2027
  else MATURITY_DATA_2025.

(* ===================================================================== *)
(** ** The heatmap, lines 330-455 *)
(* ===================================================================== *)

(** The hover text of one cell is assembled from the category, the
    dimension, the level of the cell in [row_values] and the description of
    that level; the evidence and reference excerpts, which do not depend on
    the scores, are left out, as is the formatting of the level. *)
Record hover : Type := mk_hover {
  hover_category : string;
  hover_dim : string;
  hover_level : float;
  hover_level_desc : string
}.

(** The data of the heatmap trace: [z] and [customdata]. *)
Record heatmap : Type := mk_heatmap {
  z_values : list (list float);
  hover_texts : list (list hover)
}.

(** Lines 341-346: the adjustment assigns into [row_values]. *)
Definition apply_governance_adjustment
    (governance_adjustment : Z) (row_values : ref) : M unit :=
  if (governance_adjustment >? 0)%Z then
    g ← list_getitem row_values 2;
    dg ← int_mul_float governance_adjustment 0.5;
    list_setitem row_values 2 (py_min 4.0 (g + dg));;
    s ← list_getitem row_values 3;
    ds ← int_mul_float governance_adjustment 0.3;
    list_setitem row_values 3 (py_min 4.0 (s + ds))
  else mret tt.

(** Lines 351-377: the hover cells of one row. *)
Definition hover_cell (category : string) (row_values : ref)
    (cell : nat * string) : M hover :=
  let '(i, dim) := cell in
  level ← list_getitem row_values i;
  let level_desc := get_level_description level in
  mret (mk_hover category dim level level_desc).

(** One turn of the loop over the categories, lines 338-378. *)
Definition heatmap_row (data : gmap string ref) (governance_adjustment : Z)
    (category : string) : M (ref * list hover) :=
  stored ← dict_getitem data category;
  row_values ← list_copy stored;
  apply_governance_adjustment governance_adjustment row_values;;
  row_hover ← mapM (hover_cell category row_values) (enumerate DIMENSIONS);
  mret (row_values, row_hover).

Definition create_heatmap (year : string) (governance_adjustment : Z)
    : M heatmap :=
  let data := get_maturity_data year in
  rows ← mapM (heatmap_row data governance_adjustment) THREAT_CATEGORIES;
  z ← mapM list_values rows.*1;
  mret (mk_heatmap z rows.*2).

(* ===================================================================== *)
(** ** The gap analysis, lines 458-531 *)
(* ===================================================================== *)

(** The data of the bar trace: [x], [y], [marker_color] and [customdata]. *)
Record gap_chart : Type := mk_gap_chart {
  categories : list string;
  gaps : list float;
  colors : list string;
  levels : list (float * float)
}.

(** One turn of the loop, lines 467-475: the gap, the threat level and the
    average protection of one category. *)
Definition gap_row (data : gmap string ref) (cat : string)
    : M (float * (float * float)) :=
  row ← dict_getitem data cat;
  threat_level ← list_getitem row 0;
  row' ← dict_getitem data cat;
  protections ← list_slice_from row' 1;
  let avg_protection := np_mean protections in
  let gap := (threat_level - avg_protection)%float in
  mret (gap, (threat_level, avg_protection)).

Definition create_gap_analysis_chart (year : string) : M gap_chart :=
  let data := get_maturity_data year in
  rows ← mapM (gap_row data) THREAT_CATEGORIES;
  let gaps := rows.*1 in
  mret (mk_gap_chart THREAT_CATEGORIES gaps (gap_color <$> gaps) rows.*2).

(* ===================================================================== *)
(** ** The radar chart, lines 534-603 *)
(* ===================================================================== *)

(** Either the empty figure or the closed polygon of one category. *)
Inductive radar_chart : Type :=
  | EmptyFigure
  | RadarFigure (values_closed : list float) (dimensions_closed : list string).

Definition create_radar_chart (category year : string) : M radar_chart :=
  let data := get_maturity_data year in
  if decide (data !! category = None) then mret EmptyFigure
  else
    values ← dict_getitem data category;
    vs ← list_values values;
    v0 ← list_getitem values 0;
    mret (RadarFigure (vs ++ [v0]) (DIMENSIONS ++ take 1 DIMENSIONS)).

(* ===================================================================== *)
(** ** The callbacks, lines 989-1050 *)
(* ===================================================================== *)

(** The statistics of [update_charts] before they are formatted for display. *)
Record stats : Type := mk_stats {
  avg_threat : float;
  avg_tech : float;
  avg_gov : float;
  avg_stake : float;
  overall_gap : float
}.

(** [[data[cat][i] for cat in THREAT_CATEGORIES]]. *)
Definition column (data : gmap string ref) (i : nat) : M (list float) :=
  mapM (λ cat, row ← dict_getitem data cat; list_getitem row i)
       THREAT_CATEGORIES.

Definition update_charts (year : string) (governance_adj : Z)
    : M (heatmap * gap_chart * stats) :=
  heatmap ← create_heatmap year governance_adj;
  gap_chart ← create_gap_analysis_chart year;
  let data := get_maturity_data year in
  threat ← column data 0;
  let avg_threat := np_mean threat in
  tech ← column data 1;
  let avg_tech := np_mean tech in
  gov ← column data 2;
  let avg_gov := np_mean gov in
  stake ← column data 3;
  let avg_stake := np_mean stake in
  let overall_gap := (avg_threat - avg_stake)%float in
  mret (heatmap, gap_chart,
        mk_stats avg_threat avg_tech avg_gov avg_stake overall_gap).

Definition update_radar (category year : string) : M radar_chart :=
  create_radar_chart category year.

(* ===================================================================== *)
(** ** Running the engine *)
(* ===================================================================== *)

(** The result of a computation started at process start-up, when the heap
    holds the twelve rows of the tables and nothing else. *)
Definition run {A : Type} (m : M A) : result A := (m initial_heap).1.

(** The years with a table of their own. *)
Definition supported_year (year : string) : Prop :=
  year = "2025" ∨ year = "2026" ∨ year = "2027".

(** The row that the table of a year stores for a category, as it is in a
    given heap. *)
Definition stored_row (h : heap) (year category : string)
    : option (list float) :=
  r ← get_maturity_data year !! category; h !! r.

(** The base scores: the stored row as it is at start-up. *)
Definition base_row (year category : string) : option (list float) :=
  stored_row initial_heap year category.

(** The base matrix of a year: the base rows in the order of the categories. *)
Definition base_matrix (year : string) : option (list (list float)) :=
  mapM (base_row year) THREAT_CATEGORIES.

(** One column of the base scores, in the order of the categories. *)
Definition base_column (year : string) (j : nat) : option (list float) :=
  mapM (λ category, row ← base_row year category; row !! j) THREAT_CATEGORIES.

(** The matrix of the heatmap of a year under an adjustment, when the
    heatmap is computed at start-up and returns. *)
Definition adjusted_matrix (year : string) (governance_adjustment : Z)
    : option (list (list float)) :=
  match run (create_heatmap year governance_adjustment) with
  | Done (Ret fig) => Some (z_values fig)
  | _ => None
  end.

(** One cell of that matrix. *)
Definition adjusted_score (year : string) (governance_adjustment : Z)
    (i j : nat) : option float :=
  m ← adjusted_matrix year governance_adjustment; row ← m !! i; row !! j.

(** One call of the presentation layer into the engine. *)
Inductive engine_call : Type :=
  | CallHeatmap (year : string) (governance_adjustment : Z)
  | CallGapAnalysis (year : string)
  | CallRadar (category year : string)
  | CallUpdateCharts (year : string) (governance_adj : Z)
  | CallUpdateRadar (category year : string).

(** The heap after a call, whether it returned or raised. *)
Definition heap_after (c : engine_call) (h : heap) : heap :=
  match c with
  | CallHeatmap year adj => (create_heatmap year adj h).2
  | CallGapAnalysis year => (create_gap_analysis_chart year h).2
  | CallRadar category year => (create_radar_chart category year h).2
  | CallUpdateCharts year adj => (update_charts year adj h).2
  | CallUpdateRadar category year => (update_radar category year h).2
  end.

(** The heap after a sequence of calls, the first call first. *)
Definition heap_after_all (cs : list engine_call) (h : heap) : heap :=
  foldl (λ h c, heap_after c h) h cs.

(* ===================================================================== *)
(** ** Comparing two runs of a computation *)
(* ===================================================================== *)

(** Two heaps that both start with the twelve rows of the tables, the
    second with the objects [k] in between: the first is the heap of a run
    at start-up, the second the heap of the same run after earlier calls
    have left [k] behind. *)
Definition heaps_rel (k : heap) (h1 h2 : heap) : Prop :=
  ∃ n, h1 = initial_heap ++ n ∧ h2 = initial_heap ++ k ++ n.

(** The same object in both heaps: a row of the tables under the same
    reference, a later object under the reference moved by [k]. *)
Definition relocated (k : heap) (r1 r2 : ref) : Prop :=
  (r1 < length initial_heap ∧ r2 = r1)
  ∨ (length initial_heap ≤ r1 ∧ r2 = r1 + length k).

(** The same later object in both heaps. *)
Definition fresh (k : heap) (r1 r2 : ref) : Prop :=
  length initial_heap ≤ r1 ∧ r2 = r1 + length k.

(** Two results that agree: the same exception, or values related by [Q]. *)
Inductive result_rel {A B : Type} (Q : A → B → Prop)
    : result A → result B → Prop :=
  | rel_ret (a : A) (b : B) : Q a b → result_rel Q (Done (Ret a)) (Done (Ret b))
  | rel_raise (e : exn) : result_rel Q (Done (Raise e)) (Done (Raise e))
  | rel_stuck : result_rel Q Stuck Stuck.

(** Two computations that, run on related heaps, have agreeing results and
    leave related heaps. *)
Definition sim {A B : Type} (k : heap) (Q : A → B → Prop)
    (m1 : M A) (m2 : M B) : Prop :=
  ∀ h1 h2, heaps_rel k h1 h2 →
    result_rel Q (m1 h1).1 (m2 h2).1 ∧ heaps_rel k (m1 h1).2 (m2 h2).2.

(** The results of two related turns of the heatmap loop: the same row
    object and the same hover cells. *)
Definition row_rel (k : heap) (p1 p2 : ref * list hover) : Prop :=
  relocated k p1.1 p2.1 ∧ p1.2 = p2.2.
(* ===================================================================== *)
(** ** The evidence behind each cell, lines 62-268 *)
(* ===================================================================== *)

(** A dimension entry of [CELL_DETAILS] is a dict read with [.get]: each of
    its four keys may be absent.  The empty dict has none of them. *)
Record dimension_details : Type := mk_dimension_details {
  level : option float;
  description : option string;
  evidence : option (list string);
  references : option (list string)
}.

(** A category entry of [CELL_DETAILS] is a dict indexed directly by its
    four keys, which every entry of the table has.  Text is kept as the
    UTF-8 bytes of the source file. *)
Record category_details : Type := mk_category_details {
  cat_description : string;
  incidents : list string;
  dimensions : gmap string dimension_details;
  thesis_quote : string
}.

Open Scope string_scope.

Definition PROMPT_INJECTION_THREAT_MATURITY : dimension_details := {|
  level := Some 4.0%float;
  description := Some
    "Fully mature threat with automated exploitation tools";
  evidence := Some
    [ "Indirect prompt injection compromises real-world LLM applications (Greshake et al., 2023)";
      "Zero-click exploits now targeting production systems (Reddy & Gujral, 2025)";
      "Exploitation pathway from lab to weaponized attack took <2 years" ];
  references := Some
    [ "Greshake et al., 2023";
      "Reddy & Gujral, 2025";
      "Wang et al., 2025" ]
|}.

Definition PROMPT_INJECTION_TECHNICAL_CONTROLS : dimension_details := {|
  level := Some 2.5%float;
  description := Some
    "Partial defenses exist but easily bypassed";
  evidence := Some
    [ "Input sanitization and output filtering implemented by major providers";
      "Defenses routinely bypassed by novel injection techniques";
      "No provably robust defense against adaptive adversaries" ];
  references := Some
    [ "Das et al., 2025";
      "Wang et al., 2025";
      "Ferrag et al., 2025" ]
|}.

Definition PROMPT_INJECTION_GOVERNANCE_ENFORCEMENT : dimension_details := {|
  level := Some 2.0%float;
  description := Some
    "Guidelines exist but enforcement is weak";
  evidence := Some
    [ "OWASP Top 10 for LLMs addresses prompt injection (OWASP, 2025)";
      "EU AI Act requires security measures but implementation unclear";
      "No mandatory security testing requirements for LLM deployments" ];
  references := Some
    [ "OWASP Foundation, 2025";
      "European Commission, 2024";
      "NIST, 2024" ]
|}.

Definition PROMPT_INJECTION_STAKEHOLDER_PROTECTIONS : dimension_details := {|
  level := Some 0.5%float;
  description := Some
    "Almost no legal standing or remedy for victims";
  evidence := Some
    [ "Non-users have no recourse when affected by LLM outputs";
      "Section 230 shields platforms from most liability in US";
      "Burden of proof on affected individuals is prohibitive" ];
  references := Some
    [ "Citron & Chesney, 2025";
      "Li et al., 2025";
      "NTIA, 2024" ]
|}.

Definition PROMPT_INJECTION_DETAILS : category_details := {|
  cat_description :=
    "Attacks that manipulate LLM behavior through crafted inputs, including direct and indirect injection techniques that can compromise system integrity and user trust.";
  incidents :=
    [ "EchoLeak CVE-2025-32711: First real-world zero-click prompt injection in production LLM (Reddy & Gujral, 2025)";
      "Bing Chat Sydney persona leak via prompt injection (Edwards, 2023)";
      "Chevrolet dealership chatbot manipulation - offered $1 car deal (Knight, 2024)" ];
  dimensions :=
    {[ "Threat Maturity" := PROMPT_INJECTION_THREAT_MATURITY;
       "Technical Controls" := PROMPT_INJECTION_TECHNICAL_CONTROLS;
       "Governance Enforcement" := PROMPT_INJECTION_GOVERNANCE_ENFORCEMENT;
       "Stakeholder Protections" := PROMPT_INJECTION_STAKEHOLDER_PROTECTIONS ]};
  thesis_quote :=
    "The exploitation pathway from laboratory proof-of-concept to weaponized zero-click vulnerability took less than two years—far outpacing protective response capabilities."
|}.

Definition AUTONOMY_HARMS_THREAT_MATURITY : dimension_details := {|
  level := Some 4.0%float;
  description := Some
    "Widespread autonomy erosion across domains";
  evidence := Some
    [ "Documented skill atrophy in professionals using AI assistants";
      "Educational integrity concerns reported across institutions globally";
      "Cognitive offloading reducing human critical thinking capacity" ];
  references := Some
    [ "Bernstein et al., 2025";
      "Shelby et al., 2023";
      "Weidinger et al., 2022" ]
|}.

Definition AUTONOMY_HARMS_TECHNICAL_CONTROLS : dimension_details := {|
  level := Some 2.0%float;
  description := Some
    "Limited technical solutions for autonomy protection";
  evidence := Some
    [ "AI detection tools have high false positive rates";
      "No effective technical barriers to over-reliance";
      "Friction-adding UX patterns largely unexplored" ];
  references := Some
    [ "Bernstein et al., 2025";
      "Bommasani et al., 2024" ]
|}.

Definition AUTONOMY_HARMS_GOVERNANCE_ENFORCEMENT : dimension_details := {|
  level := Some 2.0%float;
  description := Some
    "Emerging policies but no enforcement mechanisms";
  evidence := Some
    [ "Educational institutions creating AI use policies";
      "Professional bodies issuing guidance without enforcement";
      "No regulatory framework for cognitive autonomy protection" ];
  references := Some
    [ "European Commission, 2024";
      "NIST, 2024";
      "OECD, 2024" ]
|}.

Definition AUTONOMY_HARMS_STAKEHOLDER_PROTECTIONS : dimension_details := {|
  level := Some 0.5%float;
  description := Some
    "No recognized right to cognitive autonomy";
  evidence := Some
    [ "No legal framework protecting against autonomy harms";
      "Affected individuals may not recognize their own diminished agency";
      "Collective harms not actionable individually" ];
  references := Some
    [ "Citron & Chesney, 2025";
      "Bommasani et al., 2024";
      "AWO International, 2023" ]
|}.

Definition AUTONOMY_HARMS_DETAILS : category_details := {|
  cat_description :=
    "Threats to human agency, decision-making autonomy, and cognitive independence from AI systems, including skill atrophy, over-reliance, and manipulation.";
  incidents :=
    [ "Documented skill atrophy in developers over-relying on AI coding assistants";
      "ChatGPT influence on student critical thinking and learning processes";
      "AI-generated content flooding information ecosystems affecting human judgment" ];
  dimensions :=
    {[ "Threat Maturity" := AUTONOMY_HARMS_THREAT_MATURITY;
       "Technical Controls" := AUTONOMY_HARMS_TECHNICAL_CONTROLS;
       "Governance Enforcement" := AUTONOMY_HARMS_GOVERNANCE_ENFORCEMENT;
       "Stakeholder Protections" := AUTONOMY_HARMS_STAKEHOLDER_PROTECTIONS ]};
  thesis_quote :=
    "Autonomy harms represent a uniquely insidious category where the affected individuals may not recognize their own diminished agency."
|}.

Definition POLITICAL_INTEGRITY_THREAT_MATURITY : dimension_details := {|
  level := Some 4.0%float;
  description := Some
    "Active exploitation in electoral contexts globally";
  evidence := Some
    [ "Documented use in 2024 election cycles across multiple countries";
      "AI robocalls directly targeting voter behavior and turnout";
      "Synthetic candidates and AI-generated campaign materials deployed" ];
  references := Some
    [ "NPR, 2024";
      "Li et al., 2025";
      "Trend Micro, 2024" ]
|}.

Definition POLITICAL_INTEGRITY_TECHNICAL_CONTROLS : dimension_details := {|
  level := Some 1.0%float;
  description := Some
    "Detection tools unreliable for sophisticated fakes";
  evidence := Some
    [ "Deepfake detection accuracy varies widely and lags generation";
      "Real-time verification not feasible at scale";
      "Watermarking standards (C2PA) adoption remains minimal" ];
  references := Some
    [ "Ferrag et al., 2025";
      "Golda et al., 2024";
      "Radanliev et al., 2025" ]
|}.

Definition POLITICAL_INTEGRITY_GOVERNANCE_ENFORCEMENT : dimension_details := {|
  level := Some 0.5%float;
  description := Some
    "Minimal regulation of AI in political contexts";
  evidence := Some
    [ "Few jurisdictions require AI disclosure in political ads";
      "First Amendment concerns limit US government action";
      "Cross-border enforcement nearly impossible" ];
  references := Some
    [ "NCSL, 2025";
      "Citron & Chesney, 2025";
      "European Commission, 2024" ]
|}.

Definition POLITICAL_INTEGRITY_STAKEHOLDER_PROTECTIONS : dimension_details := {|
  level := Some 0.5%float;
  description := Some
    "Voters and candidates lack effective remedies";
  evidence := Some
    [ "No rapid response mechanism for electoral deepfakes";
      "Damage occurs before content can be debunked";
      "No cause of action for diffuse democratic harms" ];
  references := Some
    [ "NPR, 2024";
      "Li et al., 2025";
      "AWO International, 2023" ]
|}.

Definition POLITICAL_INTEGRITY_DETAILS : category_details := {|
  cat_description :=
    "Threats to democratic processes, electoral systems, and political discourse from AI-generated content including deepfakes, synthetic media, and coordinated disinformation.";
  incidents :=
    [ "Biden robocall deepfake urging voters to skip NH primary (NPR, 2024)";
      "AI-generated political disinformation campaigns in multiple countries";
      "Synthetic media targeting election integrity in 2024 cycles" ];
  dimensions :=
    {[ "Threat Maturity" := POLITICAL_INTEGRITY_THREAT_MATURITY;
       "Technical Controls" := POLITICAL_INTEGRITY_TECHNICAL_CONTROLS;
       "Governance Enforcement" := POLITICAL_INTEGRITY_GOVERNANCE_ENFORCEMENT;
       "Stakeholder Protections" := POLITICAL_INTEGRITY_STAKEHOLDER_PROTECTIONS ]};
  thesis_quote :=
    "The 3.5-level gap between threat maturity and stakeholder protection in political integrity represents perhaps the most acute democratic vulnerability in the generative AI era."
|}.

Definition PRIVACY_THREAT_MATURITY : dimension_details := {|
  level := Some 4.0%float;
  description := Some
    "Sophisticated privacy attacks well-documented";
  evidence := Some
    [ "Membership inference and model inversion attacks mature";
      "Training data extraction demonstrated at scale (Carlini et al.)";
      "Unintentional memorization creates persistent privacy risks" ];
  references := Some
    [ "Carlini et al., 2024";
      "Liu et al., 2024";
      "Das et al., 2025" ]
|}.

Definition PRIVACY_TECHNICAL_CONTROLS : dimension_details := {|
  level := Some 2.0%float;
  description := Some
    "Differential privacy and access controls exist";
  evidence := Some
    [ "Major providers implementing privacy-preserving techniques";
      "Effectiveness varies significantly across implementations";
      "Trade-offs between privacy and model utility persist" ];
  references := Some
    [ "Liu et al., 2024";
      "Das et al., 2025";
      "Golda et al., 2024" ]
|}.

Definition PRIVACY_GOVERNANCE_ENFORCEMENT : dimension_details := {|
  level := Some 2.0%float;
  description := Some
    "GDPR and emerging AI regulations apply";
  evidence := Some
    [ "GDPR provides baseline protections in EU";
      "EDPB guidance specifically addresses LLM privacy risks";
      "Enforcement actions beginning against AI companies" ];
  references := Some
    [ "EDPB, 2025";
      "European Commission, 2024";
      "Veale & Borgesius, 2023" ]
|}.

Definition PRIVACY_STAKEHOLDER_PROTECTIONS : dimension_details := {|
  level := Some 2.0%float;
  description := Some
    "Established privacy rights provide some recourse";
  evidence := Some
    [ "Data subject rights under GDPR enforceable";
      "Class action mechanisms available in some jurisdictions";
      "Pre-existing legal frameworks reduce protection gap by 1.5 levels" ];
  references := Some
    [ "EDPB, 2025";
      "Veale & Borgesius, 2023";
      "OECD, 2024" ]
|}.

Definition PRIVACY_DETAILS : category_details := {|
  cat_description :=
    "Baseline comparison category showing traditional privacy protections that pre-date generative AI, demonstrating that established legal frameworks substantially narrow protection gaps.";
  incidents :=
    [ "ChatGPT data breach exposing user conversations (OpenAI, 2023)";
      "Samsung employees leaking proprietary code via ChatGPT (Milmo, 2023)";
      "Training data extraction attacks revealing personal information" ];
  dimensions :=
    {[ "Threat Maturity" := PRIVACY_THREAT_MATURITY;
       "Technical Controls" := PRIVACY_TECHNICAL_CONTROLS;
       "Governance Enforcement" := PRIVACY_GOVERNANCE_ENFORCEMENT;
       "Stakeholder Protections" := PRIVACY_STAKEHOLDER_PROTECTIONS ]};
  thesis_quote :=
    "Privacy serves as a crucial baseline comparator, demonstrating that when legal frameworks predate the technology, protection gaps are substantially narrower—a key finding for policy development."
|}.

Definition CELL_DETAILS : gmap string category_details :=
  {[ "Prompt Injection" := PROMPT_INJECTION_DETAILS;
     "Autonomy Harms" := AUTONOMY_HARMS_DETAILS;
     "Political Integrity" := POLITICAL_INTEGRITY_DETAILS;
     "Privacy" := PRIVACY_DETAILS ]}.
Close Scope string_scope.

(** [MATURITY_LEVELS], lines 271-277. *)
Definition MATURITY_LEVELS : gmap Z string :=
  {[ 0%Z := "Non-existent"; 1%Z := "Initial/Ad-hoc"; 2%Z := "Developing";
     3%Z := "Defined"; 4%Z := "Managed/Mature" ]}%string.

(** The subtitle of the heatmap, line 422. *)
Definition year_label (year : string) : string :=
  if decide (year = "2025") then (year ++ " Baseline")%string
  else (year ++ " Projection")%string.

(* ===================================================================== *)
(** ** The detail modal, lines 606-643 and 1053-1133 *)
(* ===================================================================== *)

(** [not data] for a dimension dict: it has no key. *)
Definition dict_is_empty (data : dimension_details) : bool :=
  match level data, description data, evidence data, references data with
  | None, None, None, None => true
  | _, _, _, _ => false
  end.

(** The empty dict [{}]. *)
Definition empty_dict : dimension_details :=
  mk_dimension_details None None None None.

(** A card of the modal: either the empty [html.Div()] or a card with the
    dimension in its header, the level and the colour of its badge, its
    class name, and the description, the evidence items and the joined
    references of its body. *)
Inductive card : Type :=
  | EmptyDiv
  | Card (card_dimension : string) (badge_level : float) (badge_color : string)
         (class_name : string) (body_description : string)
         (body_evidence : list string) (body_references : string).

(** [create_dimension_card], lines 606-643.  The default level is the
    [int] 0, which compares and is shown as 0.0. *)
Definition create_dimension_card (dimension : string)
    (data : dimension_details) : card :=
  if dict_is_empty data then EmptyDiv
  else
    let level := default 0%float (level data) in
    let '(color, bg_class) :=
      if (level <? 1.0)%float then ("danger", "bg-danger bg-opacity-10")
      else if (level <? 2.0)%float then ("warning", "bg-warning bg-opacity-10")
      else if (level <? 3.0)%float then ("info", "bg-info bg-opacity-10")
      else ("success", "bg-success bg-opacity-10") in
    Card dimension level color ("h-100 " ++ bg_class)
      (default "" (description data))
      (default [] (evidence data))
      (String.concat ", " (default [] (references data))).

(** The title of the modal: the empty string or the clicked category. *)
Inductive modal_title : Type :=
  | NoTitle
  | Title (category : string).

(** The body of the modal: the empty string, or the description and the
    quote of the category, its dimension cards and its incidents. *)
Inductive modal_body : Type :=
  | NoBody
  | Body (body_text : string) (quote : string) (cards : list card)
         (incident_items : list string).

(** [toggle_modal], lines 1063-1133.  [triggered] is [ctx.triggered_id];
    [click_data] is [None] or the click event, of which the ["y"] of each of
    its points is kept. *)
Definition toggle_modal (triggered : option string)
    (click_data : option (list string)) (close_clicks : option Z)
    (is_open : bool) : outcome (bool * modal_title * modal_body) :=
  if decide (triggered = Some "close-modal") then Ret (false, NoTitle, NoBody)
  else
    match click_data with
    | None => Ret (false, NoTitle, NoBody)
    | Some points =>
        match points !! 0 with
        | None => Raise IndexError
        | Some category =>
            match CELL_DETAILS !! category with
            | None => Ret (false, NoTitle, NoBody)
            | Some details =>
                let cards :=
                  (λ dim, create_dimension_card dim
                            (default empty_dict (dimensions details !! dim)))
                  <$> DIMENSIONS in
                Ret (true, Title category,
                     Body (cat_description details) (thesis_quote details)
                          cards (incidents details))
            end
        end
    end.

(* ===================================================================== *)
(** ** The controls, lines 685-722 and 854-859 *)
(* ===================================================================== *)

(** The values of the options of the year selector. *)
Definition YEAR_SELECTOR_VALUES : list string := ["2025"; "2026"; "2027"].

(** The slider of the governance simulation: [min=0, max=4, step=1]. *)
Definition SLIDER_MIN : Z := 0.
Definition SLIDER_MAX : Z := 4.

(** The values of the options of the radar selector. *)
Definition RADAR_SELECTOR_VALUES : list string := THREAT_CATEGORIES.

(* ===================================================================== *)
(** * Properties *)
(* ===================================================================== *)

(* ===================================================================== *)
(** ** Order facts about binary64 comparison *)
(* ===================================================================== *)

Section FloatOrder.

Lemma SFcompare_finite_flip (s1 s2 : bool) (m1 m2 : positive) (e1 e2 : Z) :
  SFcompare (S754_finite s1 m1 e1) (S754_finite s2 m2 e2) =
  option_map CompOpp (SFcompare (S754_finite s2 m2 e2) (S754_finite s1 m1 e1)).
Proof.
  cbn [SFcompare option_map].
  assert (Hm : Pos.compare_cont Eq m2 m1 = CompOpp (Pos.compare_cont Eq m1 m2))
    by (symmetry; apply (Pos.compare_cont_antisym m1 m2 Eq)).
  rewrite (Z.compare_antisym e1 e2), Hm.
  destruct s1, s2; cbn; try reflexivity;
    destruct (e1 ?= e2)%Z; cbn; try reflexivity;
    destruct (Pos.compare_cont Eq m1 m2); reflexivity.
Qed.

Lemma SFcompare_flip (x y : spec_float) :
  SFcompare x y = option_map CompOpp (SFcompare y x).
Proof.
  destruct x as [sx|sx| |sx mx ex], y as [sy|sy| |sy my ey];
    try apply SFcompare_finite_flip;
    cbn; try reflexivity;
    repeat match goal with b : bool |- _ => destruct b end; reflexivity.
Qed.

(** Two numbers are unordered only when one of them is a NaN, which is
    the only number not comparable with itself. *)
Lemma SFcompare_unordered (x y : spec_float) :
  SFcompare x y = None -> SFcompare x x = None \/ SFcompare y y = None.
Proof.
  destruct x as [sx|sx| |sx mx ex], y as [sy|sy| |sy my ey];
    cbn; auto; discriminate.
Qed.

(** [x <= y] excludes [y < x]. *)
Lemma leb_not_ltb (x y : float) :
  (x <=? y)%float = true -> (y <? x)%float = false.
Proof.
  rewrite leb_spec, ltb_spec. unfold SFleb, SFltb.
  rewrite (SFcompare_flip (Prim2SF y) (Prim2SF x)).
  destruct (SFcompare (Prim2SF x) (Prim2SF y)) as [[ | | ]|]; cbn; congruence.
Qed.

(** [x < y] gives [x <= y]. *)
Lemma ltb_leb (x y : float) :
  (x <? y)%float = true -> (x <=? y)%float = true.
Proof.
  rewrite leb_spec, ltb_spec. unfold SFleb, SFltb.
  destruct (SFcompare (Prim2SF x) (Prim2SF y)) as [[ | | ]|]; cbn; congruence.
Qed.

Ltac cmp_cases :=
  repeat match goal with
    | H : context [Pos.compare_cont Eq ?a ?b] |- _ =>
        rewrite (Pos.compare_cont_spec a b Eq) in H; cbn [Pos.switch_Eq] in H
    | |- context [Pos.compare_cont Eq ?a ?b] =>
        rewrite (Pos.compare_cont_spec a b Eq); cbn [Pos.switch_Eq]
    end;
  repeat match goal with
    | H : context [(?a ?= ?b)%Z] |- _ => destruct (Z.compare_spec a b)
    | |- context [(?a ?= ?b)%Z] => destruct (Z.compare_spec a b)
    | H : context [(?a ?= ?b)%positive] |- _ => destruct (Pos.compare_spec a b)
    | |- context [(?a ?= ?b)%positive] => destruct (Pos.compare_spec a b)
    end;
  cbn in *; subst; try discriminate; try reflexivity; try lia.

Lemma SFltb_SFleb_trans (x y z : spec_float) :
  SFltb x y = true -> SFleb y z = true -> SFltb x z = true.
Proof.
  unfold SFltb, SFleb.
  destruct x as [sx|sx| |sx mx ex], y as [sy|sy| |sy my ey],
    z as [sz|sz| |sz mz ez];
    repeat match goal with b : bool |- _ => destruct b end;
    cbn; try congruence; intros H1 H2; cmp_cases.
Qed.

Lemma SFleb_ordered_r (x y : spec_float) :
  SFleb x y = true -> SFleb y y = true.
Proof.
  unfold SFleb.
  destruct x as [sx|sx| |sx mx ex], y as [sy|sy| |sy my ey];
    repeat match goal with b : bool |- _ => destruct b end;
    cbn; try congruence; intros _;
    rewrite Z.compare_refl, Pos.compare_cont_refl; reflexivity.
Qed.

(** [x < y <= z] gives [x < z]. *)
Lemma ltb_leb_trans (x y z : float) :
  (x <? y)%float = true -> (y <=? z)%float = true -> (x <? z)%float = true.
Proof. rewrite !ltb_spec, leb_spec. apply SFltb_SFleb_trans. Qed.

(** The right-hand side of a true [<=] is a number, not a NaN. *)
Lemma leb_ordered_r (x y : float) :
  (x <=? y)%float = true -> (y <=? y)%float = true.
Proof. rewrite !leb_spec. apply SFleb_ordered_r. Qed.

(** On two ordered numbers (neither is a NaN), [not (y < x)] is [x <= y]. *)
Lemma not_ltb_leb (x y : float) :
  (x <=? x)%float = true -> (y <=? y)%float = true ->
  (y <? x)%float = false -> (x <=? y)%float = true.
Proof.
  rewrite !leb_spec, ltb_spec. unfold SFleb, SFltb.
  rewrite (SFcompare_flip (Prim2SF y) (Prim2SF x)).
  destruct (SFcompare (Prim2SF x) (Prim2SF y)) as [[ | | ]|] eqn:E;
    cbn; try congruence.
  destruct (SFcompare_unordered _ _ E) as [-> | ->]; congruence.
Qed.

End FloatOrder.


(** Between two numbers, [x <= y] is the negation of [y < x]. *)
Lemma leb_negb_ltb (x y : float) :
  (x <=? x)%float = true -> (y <=? y)%float = true ->
  (x <=? y)%float = negb (y <? x)%float.
Proof.
  intros Hx Hy. destruct (y <? x)%float eqn:E; cbn.
  - destruct (x <=? y)%float eqn:E'; [|reflexivity].
    apply leb_not_ltb in E'. congruence.
  - now apply not_ltb_leb.
Qed.

(** A number below a cut point is below every larger cut point. *)
Lemma ltb_cut_mono (s c c' : float) :
  (c <=? c')%float = true -> (s <? c)%float = true -> (s <? c')%float = true.
Proof. intros Hc Hs. exact (ltb_leb_trans s c c' Hs Hc). Qed.

(** A number at most a threshold is not above any larger threshold. *)
Lemma leb_cut_not_above (g c c' : float) :
  (c <=? c')%float = true -> (g <=? c)%float = true -> (c' <? g)%float = false.
Proof.
  intros Hc Hg. destruct (c' <? g)%float eqn:E; [|reflexivity].
  pose proof (ltb_leb_trans _ _ _ E Hg) as Hlt.
  apply leb_not_ltb in Hc. congruence.
Qed.

(** The clamp of lines 344 and 346 never exceeds its ceiling, whatever the
    sum it is given. *)
Lemma py_min_le_cap (cap x : float) :
  (cap <=? cap)%float = true → (py_min cap x <=? cap)%float = true.
Proof.
  intros Hcap. unfold py_min. destruct (x <? cap)%float eqn:E.
  - now apply ltb_leb.
  - exact Hcap.
Qed.

(* ===================================================================== *)
(** ** The level description *)
(* ===================================================================== *)

(** C5. For every score between 0 and 4, [get_level_description] returns one
    of the five labels, and it returns each label exactly on its band:
    Non-existent on [0,0.5), Initial/Ad-hoc on [0.5,1.5), Developing on
    [1.5,2.5), Defined on [2.5,3.5) and Managed/Mature on [3.5,4]; the cut
    points 0.5, 1.5, 2.5 and 3.5 belong to the band that starts at them. *)
Theorem get_level_description_bands (s : float) :
  (0 <=? s)%float = true -> (s <=? 4)%float = true ->
  get_level_description s ∈
    ["Non-existent"; "Initial/Ad-hoc"; "Developing"; "Defined";
     "Managed/Mature"]%string
  ∧ (get_level_description s = "Non-existent"%string
       ↔ (s <? 0.5)%float = true)
  ∧ (get_level_description s = "Initial/Ad-hoc"%string
       ↔ (0.5 <=? s)%float = true ∧ (s <? 1.5)%float = true)
  ∧ (get_level_description s = "Developing"%string
       ↔ (1.5 <=? s)%float = true ∧ (s <? 2.5)%float = true)
  ∧ (get_level_description s = "Defined"%string
       ↔ (2.5 <=? s)%float = true ∧ (s <? 3.5)%float = true)
  ∧ (get_level_description s = "Managed/Mature"%string
       ↔ (3.5 <=? s)%float = true)
  ∧ get_level_description 0.5 = "Initial/Ad-hoc"%string
  ∧ get_level_description 1.5 = "Developing"%string
  ∧ get_level_description 2.5 = "Defined"%string
  ∧ get_level_description 3.5 = "Managed/Mature"%string.
Proof.
  intros H0 H4.
  pose proof (leb_ordered_r _ _ H0) as Hs.
  rewrite (leb_negb_ltb 0.5 s eq_refl Hs), (leb_negb_ltb 1.5 s eq_refl Hs),
    (leb_negb_ltb 2.5 s eq_refl Hs), (leb_negb_ltb 3.5 s eq_refl Hs).
  pose proof (ltb_cut_mono s 0.5 1.5 eq_refl) as M1.
  pose proof (ltb_cut_mono s 1.5 2.5 eq_refl) as M2.
  pose proof (ltb_cut_mono s 2.5 3.5 eq_refl) as M3.
  unfold get_level_description.
  destruct (s <? 0.5)%float eqn:E1, (s <? 1.5)%float eqn:E2,
    (s <? 2.5)%float eqn:E3, (s <? 3.5)%float eqn:E4; cbn [negb];
    try (pose proof (M1 eq_refl); discriminate);
    try (pose proof (M2 eq_refl); discriminate);
    try (pose proof (M3 eq_refl); discriminate);
    (split; [set_solver|]);
    repeat split; intros; try reflexivity; destruct_and?; congruence.
Qed.

Lemma get_level_description_bands_witness :
  (0 <=? 2.9)%float = true ∧ (2.9 <=? 4)%float = true
  ∧ get_level_description 2.9 = "Defined"%string.
Proof.
  split_and!; [reflexivity | reflexivity |].
  destruct (get_level_description_bands 2.9 eq_refl eq_refl)
    as (_ & _ & _ & _ & Hdefined & _).
  apply Hdefined. split; reflexivity.
Defined.

(* ===================================================================== *)
(** ** The severity colour of a gap *)
(* ===================================================================== *)

(** C6. [gap_color] sorts a gap into four buckets by the thresholds 2.5, 2
    and 1.5, each an exclusive lower bound, tried from the highest down: a
    gap above 2.5 is in the first bucket, one above 2 and at most 2.5 in the
    second, one above 1.5 and at most 2 in the third, and one at most 1.5 in
    the last.  The gaps 3.333, 1.6 and 1.0 fall in the first, the third and
    the last bucket. *)
Theorem gap_color_buckets (g : float) :
  ((2.5 <? g)%float = true → gap_color g = "#d73027"%string)
  ∧ ((g <=? 2.5)%float = true → (2 <? g)%float = true
       → gap_color g = "#fc8d59"%string)
  ∧ ((g <=? 2)%float = true → (1.5 <? g)%float = true
       → gap_color g = "#fee08b"%string)
  ∧ ((g <=? 1.5)%float = true → gap_color g = "#d9ef8b"%string)
  ∧ gap_color 3.333 = "#d73027"%string
  ∧ gap_color 1.6 = "#fee08b"%string
  ∧ gap_color 1.0 = "#d9ef8b"%string.
Proof.
  unfold gap_color. repeat split; try reflexivity.
  - intros ->. reflexivity.
  - intros Hle ->. now rewrite (leb_not_ltb _ _ Hle).
  - intros Hle ->.
    now rewrite (leb_cut_not_above g 2 2.5 eq_refl Hle), (leb_not_ltb _ _ Hle).
  - intros Hle.
    now rewrite (leb_cut_not_above g 1.5 2.5 eq_refl Hle),
      (leb_cut_not_above g 1.5 2 eq_refl Hle), (leb_not_ltb _ _ Hle).
Qed.

Lemma gap_color_buckets_witness :
  gap_color 2.25 = "#fc8d59"%string ∧ gap_color 1.25 = "#d9ef8b"%string.
Proof.
  split.
  - exact (proj1 (proj2 (gap_color_buckets 2.25)) eq_refl eq_refl).
  - exact (proj1 (proj2 (proj2 (proj2 (gap_color_buckets 1.25)))) eq_refl).
Defined.

(* ===================================================================== *)
(** ** What a computation does to the heap *)
(* ===================================================================== *)

Section HeapEffects.

Context {A B : Type}.

Lemma bind_unfold (m : M A) (f : A → M B) (h : heap) :
  (m ≫= f) h =
  match m h with
  | (Done (Ret a), h') => f a h'
  | (Done (Raise e), h') => (Done (Raise e), h')
  | (Stuck, h') => (Stuck, h')
  end.
Proof. reflexivity. Qed.

End HeapEffects.

Create HintDb heap_effects.

Lemma grows_ret {A : Type} (a : A) : grows (mret a).
Proof. intros h. reflexivity. Qed.

Lemma grows_raise {A : Type} (e : exn) : grows (raise (A := A) e).
Proof. intros h. reflexivity. Qed.

Lemma grows_lift {A : Type} (o : outcome A) : grows (lift o).
Proof. intros h. reflexivity. Qed.

Lemma grows_bind {A B : Type} (m : M A) (f : A → M B) :
  grows m → (∀ a, grows (f a)) → grows (m ≫= f).
Proof.
  intros Hm Hf h. rewrite bind_unfold. specialize (Hm h).
  destruct (m h) as [[[a|e]|] h']; cbn in *; try assumption.
  etrans; [exact Hm | apply Hf].
Qed.

Lemma grows_mapM {A B : Type} (f : A → M B) (l : list A) :
  (∀ x, grows (f x)) → grows (mapM f l).
Proof.
  intros Hf. induction l as [|x l IH]; cbn [mapM].
  - apply grows_ret.
  - apply grows_bind; [apply Hf|]. intros y.
    apply grows_bind; [exact IH|]. intros k. apply grows_ret.
Qed.

Lemma grows_dict_getitem (d : gmap string ref) (k : string) :
  grows (dict_getitem d k).
Proof. unfold dict_getitem. destruct (d !! k); intros h; reflexivity. Qed.

Lemma grows_list_copy (r : ref) : grows (list_copy r).
Proof.
  intros h. unfold list_copy. destruct (h !! r); cbn; [|reflexivity].
  apply prefix_app_r. reflexivity.
Qed.

Lemma grows_list_getitem (r : ref) (i : nat) : grows (list_getitem r i).
Proof.
  intros h. unfold list_getitem.
  destruct (h !! r) as [l|]; [destruct (l !! i)|]; reflexivity.
Qed.

Lemma grows_list_values (r : ref) : grows (list_values r).
Proof. intros h. unfold list_values. destruct (h !! r); reflexivity. Qed.

#[local] Hint Resolve grows_ret grows_raise grows_lift grows_bind grows_mapM
  grows_dict_getitem grows_list_copy grows_list_getitem grows_list_values
  : heap_effects.

Lemma grows_list_slice_from (r : ref) (k : nat) : grows (list_slice_from r k).
Proof. unfold list_slice_from. auto with heap_effects. Qed.

Lemma grows_int_mul_float (n : Z) (x : float) : grows (int_mul_float n x).
Proof. unfold int_mul_float. auto with heap_effects. Qed.

#[local] Hint Resolve grows_list_slice_from grows_int_mul_float : heap_effects.

(** *** Computations on the newest object *)

Lemma cell_local_ret {A : Type} (h : heap) (a : A) : cell_local h (mret a).
Proof. intros l. by exists (Done (Ret a)), l. Qed.

Lemma cell_local_bind {A B : Type} (h : heap) (m : M A) (f : A → M B) :
  cell_local h m → (∀ a, cell_local h (f a)) → cell_local h (m ≫= f).
Proof.
  intros Hm Hf l. rewrite bind_unfold.
  destruct (Hm l) as ([[a|e]|] & l' & ->).
  - apply Hf.
  - by exists (Done (Raise e)), l'.
  - by exists Stuck, l'.
Qed.

Lemma cell_local_mapM {A B : Type} (h : heap) (f : A → M B) (l : list A) :
  (∀ x, cell_local h (f x)) → cell_local h (mapM f l).
Proof.
  intros Hf. induction l as [|x l IH]; cbn [mapM].
  - apply cell_local_ret.
  - apply cell_local_bind; [apply Hf|]. intros y.
    apply cell_local_bind; [exact IH|]. intros k. apply cell_local_ret.
Qed.

Lemma cell_local_list_getitem (h : heap) (i : nat) :
  cell_local h (list_getitem (length h) i).
Proof.
  intros l. unfold list_getitem. rewrite list_lookup_middle by reflexivity.
  destruct (l !! i); eauto.
Qed.

Lemma cell_local_list_setitem (h : heap) (i : nat) (v : float) :
  cell_local h (list_setitem (length h) i v).
Proof.
  intros l. unfold list_setitem. rewrite list_lookup_middle by reflexivity.
  destruct (decide (i < length l)); [|eauto].
  exists (Done (Ret tt)), (<[i:=v]> l). f_equal.
  rewrite insert_app_r_alt, Nat.sub_diag by reflexivity. reflexivity.
Qed.

Lemma cell_local_int_mul_float (h : heap) (n : Z) (x : float) :
  cell_local h (int_mul_float n x).
Proof.
  intros l. unfold int_mul_float, lift. rewrite bind_unfold.
  destruct (float_of_int n); eauto.
Qed.

#[local] Hint Resolve cell_local_ret cell_local_bind cell_local_mapM
  cell_local_list_getitem cell_local_list_setitem cell_local_int_mul_float
  : heap_effects.

(** The adjustment of lines 341-346, applied to the newest object, changes
    no other object. *)
Lemma cell_local_apply_governance_adjustment (h : heap) (adj : Z) :
  cell_local h (apply_governance_adjustment adj (length h)).
Proof.
  unfold apply_governance_adjustment.
  destruct (adj >? 0)%Z; auto 12 with heap_effects.
Qed.

Lemma cell_local_hover_cell (h : heap) (category : string) (cell : nat * string) :
  cell_local h (hover_cell category (length h) cell).
Proof. destruct cell as [i dim]. cbn. auto with heap_effects. Qed.

#[local] Hint Resolve cell_local_apply_governance_adjustment
  cell_local_hover_cell : heap_effects.

(** One turn of the heatmap loop copies the stored row and works on the
    copy: the objects that existed before the turn are unchanged. *)
Lemma grows_heatmap_row (data : gmap string ref) (adj : Z) (category : string) :
  grows (heatmap_row data adj category).
Proof.
  intros h. unfold heatmap_row, dict_getitem.
  destruct (data !! category) as [stored|]; [|reflexivity].
  rewrite bind_unfold. cbn [mret M_ret].
  rewrite bind_unfold. unfold list_copy at 1.
  destruct (h !! stored) as [l|]; [|reflexivity].
  assert (Hloc : cell_local h
    (apply_governance_adjustment adj (length h);;
     row_hover ← mapM (hover_cell category (length h)) (enumerate DIMENSIONS);
     mret (length h, row_hover))) by auto 8 with heap_effects.
  destruct (Hloc l) as (o & l' & ->). cbn. by apply prefix_app_r.
Qed.

#[local] Hint Resolve grows_heatmap_row : heap_effects.

Lemma grows_create_heatmap (year : string) (adj : Z) :
  grows (create_heatmap year adj).
Proof. unfold create_heatmap. auto 8 with heap_effects. Qed.

Lemma grows_create_gap_analysis_chart (year : string) :
  grows (create_gap_analysis_chart year).
Proof.
  unfold create_gap_analysis_chart, gap_row. auto 12 with heap_effects.
Qed.

Lemma grows_create_radar_chart (category year : string) :
  grows (create_radar_chart category year).
Proof.
  unfold create_radar_chart. case_decide; auto 8 with heap_effects.
Qed.

#[local] Hint Resolve grows_create_heatmap grows_create_gap_analysis_chart
  grows_create_radar_chart : heap_effects.

Lemma grows_update_charts (year : string) (adj : Z) :
  grows (update_charts year adj).
Proof. unfold update_charts, column. auto 20 with heap_effects. Qed.

Lemma heap_after_prefix (c : engine_call) (h : heap) :
  h `prefix_of` heap_after c h.
Proof.
  destruct c; cbn [heap_after]; unfold update_radar.
  - apply grows_create_heatmap.
  - apply grows_create_gap_analysis_chart.
  - apply grows_create_radar_chart.
  - apply grows_update_charts.
  - apply grows_create_radar_chart.
Qed.

Lemma heap_after_all_prefix (cs : list engine_call) (h : heap) :
  h `prefix_of` heap_after_all cs h.
Proof.
  revert h. induction cs as [|c cs IH]; intros h; cbn.
  - reflexivity.
  - etrans; [apply heap_after_prefix | apply IH].
Qed.

(** One turn of the heatmap loop that returns, returns a reference to an
    object that did not exist before the turn, and that object is the only
    change to the heap. *)
Lemma heatmap_row_fresh (data : gmap string ref) (adj : Z) (category : string)
    (h h' : heap) (r : ref) (row_hover : list hover) :
  heatmap_row data adj category h = (Done (Ret (r, row_hover)), h') →
  r = length h ∧ ∃ row_values, h' = h ++ [row_values].
Proof.
  unfold heatmap_row, dict_getitem.
  destruct (data !! category) as [stored|]; [|discriminate].
  rewrite bind_unfold. cbn [mret M_ret].
  rewrite bind_unfold. unfold list_copy at 1.
  destruct (h !! stored) as [l|]; [|discriminate].
  rewrite bind_unfold.
  destruct (cell_local_apply_governance_adjustment h adj l) as (o & l1 & ->).
  destruct o as [[[]|e]|]; try discriminate.
  rewrite bind_unfold.
  destruct (cell_local_mapM h (hover_cell category (length h))
              (enumerate DIMENSIONS) (cell_local_hover_cell h category) l1)
    as (o & l2 & ->).
  destruct o as [[hovers|e]|]; try discriminate.
  cbn. intros [= <- <- <-]. eauto.
Qed.

(* ===================================================================== *)
(** ** The tables *)
(* ===================================================================== *)

(** Every reference held by a table is one of the twelve start-up rows. *)
Lemma table_refs_allocated (year category : string) (r : ref) :
  get_maturity_data year !! category = Some r → is_Some (initial_heap !! r).
Proof.
  intros Hr. apply lookup_lt_is_Some. change (length initial_heap) with 12.
  revert Hr. unfold get_maturity_data,
    MATURITY_DATA_2025, MATURITY_DATA_2026, MATURITY_DATA_2027.
  repeat case_decide; intros Hr;
    repeat (apply lookup_insert_Some in Hr as [[_ <-]|[_ Hr]]; [lia|]);
    try (apply lookup_singleton_Some in Hr as [_ <-]; lia);
    try (rewrite lookup_empty in Hr; discriminate).
Qed.

(** The keys of every table are the four categories. *)
Lemma table_lookup_None (year category : string) :
  category ∉ THREAT_CATEGORIES → get_maturity_data year !! category = None.
Proof.
  unfold THREAT_CATEGORIES. rewrite !not_elem_of_cons. intros (?&?&?&?&_).
  unfold get_maturity_data,
    MATURITY_DATA_2025, MATURITY_DATA_2026, MATURITY_DATA_2027.
  repeat case_decide;
    rewrite !lookup_insert_ne by congruence;
    first [apply lookup_singleton_ne; congruence | apply lookup_empty].
Qed.

(** A year without a table of its own gets the table of 2025. *)
Lemma get_maturity_data_default (year : string) :
  ¬ supported_year year → get_maturity_data year = MATURITY_DATA_2025.
Proof.
  unfold supported_year, get_maturity_data. intros Hy.
  repeat case_decide; tauto.
Qed.

(** C9. The rows stored in the tables of 2025, 2026 and 2027 are never
    changed: after any sequence of heatmap, gap-analysis, radar and
    callback computations, with any arguments, every table still stores for
    every category the row it stored at start-up; all twelve start-up rows
    are as they were.  The heatmap adjusts a copy: the row a loop turn
    returns is an object created in that turn, not the stored one. *)
Theorem tables_never_mutated (cs : list engine_call) :
  (∀ year category,
     stored_row (heap_after_all cs initial_heap) year category
     = base_row year category)
  ∧ take (length initial_heap) (heap_after_all cs initial_heap) = initial_heap
  ∧ (∀ data adj category h h' r row_hover,
       heatmap_row data adj category h = (Done (Ret (r, row_hover)), h') →
       h !! r = None ∧ take (length h) h' = h).
Proof.
  pose proof (heap_after_all_prefix cs initial_heap) as Hpre.
  split; [|split].
  - intros year category. unfold base_row, stored_row.
    destruct (get_maturity_data year !! category) as [r|] eqn:Hr; [|reflexivity].
    cbn [mbind option_bind].
    destruct (table_refs_allocated _ _ _ Hr) as [row Hrow].
    rewrite Hrow. exact (prefix_lookup_Some _ _ _ _ Hrow Hpre).
  - destruct Hpre as [k ->]. apply take_app_length.
  - intros data adj category h h' r row_hover Hrun.
    apply heatmap_row_fresh in Hrun as [-> [row ->]]. split.
    + apply lookup_ge_None. lia.
    + apply take_app_length.
Qed.

Lemma tables_never_mutated_witness :
  stored_row
    (heap_after_all
       [CallHeatmap "2027" 4; CallUpdateCharts "2099" 3;
        CallRadar "Privacy" "2026"; CallGapAnalysis "2025"]
       initial_heap)
    "2027" "Privacy"
  = Some [4.0; 3.0; 3.0; 3.0]%float
  ∧ initial_heap !! 12 = None.
Proof.
  destruct (tables_never_mutated
              [CallHeatmap "2027" 4; CallUpdateCharts "2099" 3;
               CallRadar "Privacy" "2026"; CallGapAnalysis "2025"])
    as (Hrows & _ & Hcopy).
  split.
  - rewrite Hrows. reflexivity.
  - refine (proj1 (Hcopy MATURITY_DATA_2027 4%Z "Privacy"%string
                     initial_heap _ 12 _ _)).
    vm_compute. reflexivity.
Defined.

(* ===================================================================== *)
(** ** Keys outside the tables *)
(* ===================================================================== *)

(** C1, as the code has it.  A year outside 2025, 2026 and 2027 raises no
    error: the lookup returns the table of 2025, so the heatmap and the gap
    analysis of such a year are those of 2025, and the heatmap of "2099" with
    adjustment 0 is the base matrix of 2025.  A category outside the four
    categories raises no error either: the radar chart of such a category is
    the empty figure. *)
Theorem unknown_keys_default (year category : string) (adj : Z) (h : heap) :
  ¬ supported_year year → category ∉ THREAT_CATEGORIES →
  get_maturity_data year = MATURITY_DATA_2025
  ∧ create_heatmap year adj h = create_heatmap "2025" adj h
  ∧ create_gap_analysis_chart year h = create_gap_analysis_chart "2025" h
  ∧ (∀ year', create_radar_chart category year' h = (Done (Ret EmptyFigure), h))
  ∧ adjusted_matrix "2099" 0 = base_matrix "2025"
  ∧ is_Some (base_matrix "2025").
Proof.
  intros Hy Hc. pose proof (get_maturity_data_default year Hy) as Hdata.
  split_and!.
  - exact Hdata.
  - unfold create_heatmap. rewrite Hdata. reflexivity.
  - unfold create_gap_analysis_chart. rewrite Hdata. reflexivity.
  - intros year'. unfold create_radar_chart.
    rewrite decide_True by (by apply table_lookup_None). reflexivity.
  - vm_compute; reflexivity.
  - eexists. vm_compute; reflexivity.
Qed.

Lemma unknown_keys_default_witness :
  get_maturity_data "2099" = MATURITY_DATA_2025
  ∧ create_radar_chart "Deepfakes" "2026" initial_heap
    = (Done (Ret EmptyFigure), initial_heap).
Proof.
  assert (Hy : ¬ supported_year "2099")
    by (intros [H|[H|H]]; discriminate H).
  assert (Hc : "Deepfakes"%string ∉ THREAT_CATEGORIES)
    by (unfold THREAT_CATEGORIES; rewrite !not_elem_of_cons;
        repeat split; try discriminate; apply not_elem_of_nil).
  pose proof (unknown_keys_default "2099" "Deepfakes" 0 initial_heap Hy Hc)
    as (Hdata & _ & _ & Hradar & _ & _).
  split; [exact Hdata | exact (Hradar "2026"%string)].
Defined.

(** C1, as stated, fails: the heatmap of the unsupported year "2099" raises
    no error and returns the matrix of 2025, and the radar chart of an
    unknown category raises no error and returns the empty figure. *)
Lemma unknown_keys_raise_nothing :
  (¬ ∃ e, run (create_heatmap "2099" 0) = Done (Raise e))
  ∧ (∃ fig, run (create_heatmap "2099" 0) = Done (Ret fig)
            ∧ z_values fig = ROWS_2025)
  ∧ (¬ ∃ e, run (create_radar_chart "Deepfakes" "2025") = Done (Raise e))
  ∧ run (create_radar_chart "Deepfakes" "2025") = Done (Ret EmptyFigure).
Proof.
  repeat split.
  - intros [e He]. vm_compute in He. discriminate He.
  - eexists. split; vm_compute; reflexivity.
  - intros [e He]. vm_compute in He. discriminate He.
Qed.

(* ===================================================================== *)
(** ** The matrix of the heatmap *)
(* ===================================================================== *)

(** The finitely many inputs of the presentation layer. *)
Lemma adjustment_cases (adj : Z) :
  (0 ≤ adj ≤ 4)%Z → adj ∈ [0; 1; 2; 3; 4]%Z.
Proof. rewrite !elem_of_cons. lia. Qed.

Ltac each_year Hy := destruct Hy as [->|[->| ->]].

Ltac each_adjustment Ha :=
  apply adjustment_cases in Ha;
  repeat (apply elem_of_cons in Ha as [->|Ha]);
  try (by apply elem_of_nil in Ha).

(** Evaluate the matrix of a given year and adjustment once. *)
Ltac matrix_value :=
  match goal with
  | |- context [adjusted_matrix ?year ?adj] =>
      let v := eval vm_compute in (adjusted_matrix year adj) in
      let E := fresh "E" in
      assert (E : adjusted_matrix year adj = v) by (vm_compute; reflexivity);
      rewrite E; clear E
  end.

Ltac each_category i Hi :=
  destruct i as [|[|[|[|i]]]]; try discriminate Hi; injection Hi as <-.

(** C2. For every supported year, every category and every adjustment level
    from 0 to 4, the row of the category in the matrix of the heatmap is the
    base row of that year with the governance score replaced by
    [min(4.0, base + adjustment * 0.5)] and the stakeholder score by
    [min(4.0, base + adjustment * 0.3)]; the threat and technical-controls
    scores are those of the base row. *)
Theorem heatmap_applies_adjustment (year : string) (adj : Z) (i : nat)
    (category : string) :
  supported_year year → (0 ≤ adj ≤ 4)%Z →
  THREAT_CATEGORIES !! i = Some category →
  ∃ m threat tech gov stake a,
    adjusted_matrix year adj = Some m
    ∧ base_row year category = Some [threat; tech; gov; stake]
    ∧ float_of_int adj = Ret a
    ∧ m !! i =
        Some [threat; tech; py_min 4.0 (gov + a * 0.5);
              py_min 4.0 (stake + a * 0.3)]%float.
Proof.
  intros Hy Ha Hi. each_year Hy; each_adjustment Ha; matrix_value;
    each_category i Hi;
    do 6 eexists; split_and!; vm_compute; reflexivity.
Qed.

Lemma heatmap_applies_adjustment_witness :
  ∃ m,
    adjusted_matrix "2027" 3 = Some m
    ∧ m !! 3 =
        Some [4.0; 3.0; py_min 4.0 (3.0 + 3 * 0.5);
              py_min 4.0 (3.0 + 3 * 0.3)]%float.
Proof.
  destruct (heatmap_applies_adjustment "2027" 3 3 "Privacy")
    as (m & threat & tech & gov & stake & a & Hrun & Hbase & Ha & Hz).
  - right; right; reflexivity.
  - lia.
  - reflexivity.
  - exists m. split; [exact Hrun|].
    injection Hbase as <- <- <- <-. injection Ha as <-. exact Hz.
Defined.

(** C7. For every supported year, the matrix of the heatmap with adjustment
    0 is the base matrix of that year, cell for cell. *)
Theorem zero_adjustment_is_identity (year : string) :
  supported_year year →
  adjusted_matrix year 0 = base_matrix year ∧ is_Some (base_matrix year).
Proof.
  intros Hy. each_year Hy; split; try (eexists; vm_compute; reflexivity);
    vm_compute; reflexivity.
Qed.

Lemma zero_adjustment_is_identity_witness :
  adjusted_matrix "2026" 0 = base_matrix "2026"
  ∧ is_Some (base_matrix "2026").
Proof.
  apply (zero_adjustment_is_identity "2026"). right; left; reflexivity.
Defined.

(** C8. For every supported year, every category and all adjustment levels
    [a1 <= a2] from 0 to 4, each score of the matrix of the heatmap under
    [a1], the governance and the stakeholder score among them, is at most the
    same score under [a2], and neither exceeds 4.0. *)
Theorem adjusted_scores_bounded_monotone (year : string) (a1 a2 : Z)
    (i j : nat) (category dim : string) :
  supported_year year → (0 ≤ a1)%Z → (a1 ≤ a2)%Z → (a2 ≤ 4)%Z →
  THREAT_CATEGORIES !! i = Some category → DIMENSIONS !! j = Some dim →
  ∃ v1 v2,
    adjusted_score year a1 i j = Some v1
    ∧ adjusted_score year a2 i j = Some v2
    ∧ (v1 <=? v2)%float = true
    ∧ (v1 <=? 4.0)%float = true
    ∧ (v2 <=? 4.0)%float = true.
Proof.
  intros Hy H1 H12 H2 Hi Hj.
  assert (Ha1 : (0 ≤ a1 ≤ 4)%Z) by lia.
  assert (Ha2 : (0 ≤ a2 ≤ 4)%Z) by lia.
  unfold adjusted_score.
  each_year Hy; each_adjustment Ha1; each_adjustment Ha2; try lia;
    repeat matrix_value;
    each_category i Hi; each_category j Hj;
    do 2 eexists; split_and!; reflexivity.
Qed.

Lemma adjusted_scores_bounded_monotone_witness :
  ∃ v1 v2,
    adjusted_score "2027" 1 3 3 = Some v1
    ∧ adjusted_score "2027" 4 3 3 = Some v2
    ∧ (v1 <=? v2)%float = true
    ∧ (v1 <=? 4.0)%float = true
    ∧ (v2 <=? 4.0)%float = true.
Proof.
  apply (adjusted_scores_bounded_monotone "2027" 1 4 3 3
           "Privacy" "Stakeholder Protections").
  - right; right; reflexivity.
  - lia.
  - lia.
  - lia.
  - reflexivity.
  - reflexivity.
Defined.

(* ===================================================================== *)
(** ** The labels of the heatmap cells *)
(* ===================================================================== *)

(** C10. In every heatmap the level shown in the hover text of a cell is the
    score of that cell in the matrix of the heatmap, that is the score after
    the adjustment and the clamp, and the label shown is the description of
    that score.  With a non-zero adjustment a label can so differ from the
    label of the base score: in 2025 the governance score 2.0 of Prompt
    Injection is "Developing", and under adjustment 2 its cell shows 3.0 and
    "Defined". *)
Theorem hover_labels_describe_adjusted_scores (year : string) (adj : Z) :
  (∀ fig, run (create_heatmap year adj) = Done (Ret fig) →
     map (map hover_level) (hover_texts fig) = z_values fig
     ∧ map (map hover_level_desc) (hover_texts fig)
       = map (map get_level_description) (z_values fig))
  ∧ ((0 ≤ adj ≤ 4)%Z → ∃ fig, run (create_heatmap year adj) = Done (Ret fig))
  ∧ (∃ fig row cell,
       run (create_heatmap "2025" 2) = Done (Ret fig)
       ∧ base_row "2025" "Prompt Injection" = Some row
       ∧ row !! 2 = Some 2.0%float
       ∧ get_level_description 2.0 = "Developing"%string
       ∧ (hover_texts fig !! 0) ≫= (.!! 2) = Some cell
       ∧ hover_dim cell = "Governance Enforcement"%string
       ∧ hover_level cell = 3.0%float
       ∧ hover_level_desc cell = "Defined"%string).
Proof.
  split_and!.
  - intros fig. unfold run, create_heatmap, get_maturity_data, heatmap_row,
      apply_governance_adjustment, int_mul_float.
    destruct (adj >? 0)%Z; [destruct (float_of_int adj) as [a|e]|];
      repeat case_decide; vm_compute; try discriminate;
      intros [= <-]; split; reflexivity.
  - intros Ha. unfold run, create_heatmap, get_maturity_data.
    each_adjustment Ha; repeat case_decide; eexists; vm_compute; reflexivity.
  - do 3 eexists. split_and!; vm_compute; reflexivity.
Qed.

Lemma hover_labels_describe_adjusted_scores_witness :
  ∃ fig, run (create_heatmap "2026" 4) = Done (Ret fig)
         ∧ map (map hover_level_desc) (hover_texts fig)
           = map (map get_level_description) (z_values fig).
Proof.
  destruct (hover_labels_describe_adjusted_scores "2026" 4)
    as (Hlabels & Hreturns & _).
  destruct Hreturns as [fig Hfig]; [lia|].
  exists fig. split; [exact Hfig|]. exact (proj2 (Hlabels fig Hfig)).
Defined.

(* ===================================================================== *)
(** ** The gap analysis and the statistics of the callback *)
(* ===================================================================== *)

(** The gap analysis reads the twelve start-up rows only: objects created
    later do not change what it returns, and it changes nothing. *)
Lemma gap_chart_frame (year : string) (k : heap) :
  create_gap_analysis_chart year (initial_heap ++ k) =
  ((create_gap_analysis_chart year initial_heap).1, initial_heap ++ k).
Proof.
  unfold create_gap_analysis_chart, get_maturity_data.
  repeat case_decide; vm_compute; reflexivity.
Qed.

(** The gap chart of the callback is the gap chart of the year, whatever the
    adjustment given to the callback. *)
Lemma update_charts_gap_chart (year : string) (adj : Z)
    (fig : heatmap) (chart : gap_chart) (st : stats) :
  run (update_charts year adj) = Done (Ret (fig, chart, st)) →
  run (create_gap_analysis_chart year) = Done (Ret chart).
Proof.
  unfold run, update_charts. rewrite bind_unfold.
  pose proof (grows_create_heatmap year adj initial_heap) as [k Hk].
  destruct (create_heatmap year adj initial_heap) as [o h1].
  cbn [snd] in Hk. subst h1.
  destruct o as [[fig'|e]|]; try discriminate.
  cbv beta. rewrite bind_unfold, gap_chart_frame.
  destruct (create_gap_analysis_chart year initial_heap).1 as [[c|e]|];
    try discriminate.
  unfold column, get_maturity_data. repeat case_decide; vm_compute; congruence.
Qed.

(** The callback returns for every year and every adjustment of the slider. *)
Lemma update_charts_returns (year : string) (adj : Z) :
  (0 ≤ adj ≤ 4)%Z →
  ∃ fig chart st, run (update_charts year adj) = Done (Ret (fig, chart, st)).
Proof.
  intros Ha. unfold run, update_charts, create_heatmap,
    create_gap_analysis_chart, get_maturity_data.
  each_adjustment Ha; repeat case_decide; do 3 eexists; vm_compute; reflexivity.
Qed.

(** C3. For every supported year and every category, the gap of the category
    in the gap analysis is its threat score minus the mean of its technical,
    governance and stakeholder scores, all taken from the base row of that
    year; the gap chart that the callback returns is this same chart under
    every adjustment.  For Political Integrity in 2025, with base scores
    4.0, 1.0, 0.5 and 0.5, the gap is 4.0 - mean(1.0, 0.5, 0.5), the double
    3.3333333333333335, within 0.001 of 3.333. *)
Theorem protection_gap_from_base_scores (year : string) (i : nat)
    (category : string) :
  (supported_year year → THREAT_CATEGORIES !! i = Some category →
   ∃ chart threat tech gov stake,
     run (create_gap_analysis_chart year) = Done (Ret chart)
     ∧ base_row year category = Some [threat; tech; gov; stake]
     ∧ gaps chart !! i = Some (threat - np_mean [tech; gov; stake])%float
     ∧ (∀ adj fig chart' st,
          run (update_charts year adj) = Done (Ret (fig, chart', st)) →
          chart' = chart)
     ∧ (∀ adj, (0 ≤ adj ≤ 4)%Z →
          ∃ fig st, run (update_charts year adj) = Done (Ret (fig, chart, st))))
  ∧ (∃ chart gap,
       run (create_gap_analysis_chart "2025") = Done (Ret chart)
       ∧ THREAT_CATEGORIES !! 2 = Some "Political Integrity"%string
       ∧ base_row "2025" "Political Integrity" = Some [4.0; 1.0; 0.5; 0.5]%float
       ∧ gaps chart !! 2 = Some gap
       ∧ gap = (4.0 - np_mean [1.0; 0.5; 0.5])%float
       ∧ gap = 3.3333333333333335%float
       ∧ (abs (gap - 3.333) <? 0.001)%float = true).
Proof.
  split.
  - intros Hy Hi.
    assert (∃ chart, run (create_gap_analysis_chart year) = Done (Ret chart))
      as [chart Hchart]
      by (each_year Hy; eexists; vm_compute; reflexivity).
    exists chart.
    assert (∃ threat tech gov stake,
      base_row year category = Some [threat; tech; gov; stake]
      ∧ gaps chart !! i = Some (threat - np_mean [tech; gov; stake])%float)
      as (threat & tech & gov & stake & Hbase & Hgap).
    { revert Hchart. each_year Hy; each_category i Hi;
        vm_compute; intros [= <-]; do 4 eexists; split; reflexivity. }
    exists threat, tech, gov, stake. split_and!; try assumption.
    + intros adj fig chart' st Hrun.
      apply update_charts_gap_chart in Hrun. congruence.
    + intros adj Ha.
      destruct (update_charts_returns year adj Ha) as (fig & chart' & st & Hrun).
      exists fig, st. rewrite Hrun.
      apply update_charts_gap_chart in Hrun. congruence.
  - do 2 eexists. split_and!; vm_compute; reflexivity.
Qed.

Lemma protection_gap_from_base_scores_witness :
  ∃ chart,
    run (create_gap_analysis_chart "2027") = Done (Ret chart)
    ∧ gaps chart !! 0 = Some (4.0 - np_mean [3.5; 3.0; 2.0])%float.
Proof.
  destruct (proj1 (protection_gap_from_base_scores "2027" 0 "Prompt Injection"))
    as (chart & threat & tech & gov & stake & Hrun & Hbase & Hgap & _).
  - right; right; reflexivity.
  - reflexivity.
  - exists chart. split; [exact Hrun|].
    injection Hbase as <- <- <- <-. exact Hgap.
Defined.

(** C4, as the code has it.  The statistics of the callback are the means of
    the four columns of the base matrix of the year, over the four
    categories, under every adjustment given to the callback, with the
    overall gap the mean threat score minus the mean stakeholder score.  For
    2025 the mean threat score is 4.0, the mean stakeholder score is
    mean(0.5, 0.5, 0.5, 2.0) = 0.875 and the overall gap is 3.125. *)
Theorem summary_statistics_from_base_scores (year : string) (adj : Z) :
  (∀ fig chart st,
     run (update_charts year adj) = Done (Ret (fig, chart, st)) →
     ∃ threat tech gov stake,
       base_column year 0 = Some threat
       ∧ base_column year 1 = Some tech
       ∧ base_column year 2 = Some gov
       ∧ base_column year 3 = Some stake
       ∧ st = mk_stats (np_mean threat) (np_mean tech) (np_mean gov)
                (np_mean stake) (np_mean threat - np_mean stake))
  ∧ ((0 ≤ adj ≤ 4)%Z →
     ∃ fig chart st, run (update_charts year adj) = Done (Ret (fig, chart, st)))
  ∧ (∃ fig chart st,
       run (update_charts "2025" 0) = Done (Ret (fig, chart, st))
       ∧ base_column "2025" 0 = Some [4.0; 4.0; 4.0; 4.0]%float
       ∧ base_column "2025" 3 = Some [0.5; 0.5; 0.5; 2.0]%float
       ∧ avg_threat st = 4.0%float
       ∧ avg_stake st = np_mean [0.5; 0.5; 0.5; 2.0]%float
       ∧ avg_stake st = 0.875%float
       ∧ overall_gap st = 3.125%float).
Proof.
  split_and!.
  - intros fig chart st. unfold run, update_charts. rewrite bind_unfold.
    pose proof (grows_create_heatmap year adj initial_heap) as [k Hk].
    destruct (create_heatmap year adj initial_heap) as [o h1].
    cbn [snd] in Hk. subst h1.
    destruct o as [[fig'|e]|]; try discriminate.
    cbv beta. rewrite bind_unfold, gap_chart_frame.
    destruct (create_gap_analysis_chart year initial_heap).1 as [[c|e]|];
      try discriminate.
    unfold column, base_column, base_row, stored_row, get_maturity_data.
    repeat case_decide; vm_compute; intros [= _ _ <-];
      do 4 eexists; split_and!; reflexivity.
  - apply update_charts_returns.
  - do 3 eexists. split_and!; vm_compute; reflexivity.
Qed.

Lemma summary_statistics_from_base_scores_witness :
  ∃ fig chart st,
    run (update_charts "2026" 3) = Done (Ret (fig, chart, st))
    ∧ base_column "2026" 2 = Some [2.5; 2.5; 1.5; 2.5]%float
    ∧ avg_gov st = np_mean [2.5; 2.5; 1.5; 2.5]%float.
Proof.
  destruct (summary_statistics_from_base_scores "2026" 3)
    as (Hstats & Hreturns & _).
  destruct Hreturns as (fig & chart & st & Hrun); [lia|].
  exists fig, chart, st. split; [exact Hrun|].
  destruct (Hstats fig chart st Hrun)
    as (threat & tech & gov & stake & _ & _ & Hgov & _ & ->).
  split; [reflexivity|].
  vm_compute in Hgov. injection Hgov as <-. reflexivity.
Defined.

(** C4, as stated, fails: with adjustment 2 given to the callback for 2025,
    the governance column of the adjusted matrix has mean 2.625 while the
    statistics report 1.625, the mean of the base column. *)
Lemma summary_statistics_ignore_adjustment :
  ∃ fig chart st governance,
    run (update_charts "2025" 2) = Done (Ret (fig, chart, st))
    ∧ adjusted_matrix "2025" 2 = Some (z_values fig)
    ∧ mapM (.!! 2) (z_values fig) = Some governance
    ∧ np_mean governance = 2.625%float
    ∧ avg_gov st = 1.625%float
    ∧ avg_gov st ≠ np_mean governance.
Proof.
  do 4 eexists. split_and!; try (vm_compute; reflexivity).
  intros H. apply (f_equal (λ x, (x =? 1.625)%float)) in H.
  vm_compute in H. discriminate H.
Qed.

(* ===================================================================== *)
(** ** Scores outside the scale *)
(* ===================================================================== *)

(** A number at least a cut point is not below any smaller cut point. *)
Lemma geb_cut_not_below (s c c' : float) :
  (c <=? c')%float = true → (c' <=? s)%float = true → (s <? c)%float = false.
Proof.
  intros Hc Hs. destruct (s <? c)%float eqn:E; [|reflexivity].
  pose proof (ltb_leb_trans _ _ _ E Hc) as Hlt.
  apply leb_not_ltb in Hs. congruence.
Qed.

(** A NaN is below nothing and above nothing. *)
Lemma nan_ltb (s x : float) :
  is_nan s = true → (s <? x)%float = false ∧ (x <? s)%float = false.
Proof.
  intros Hnan. rewrite !ltb_spec. unfold Prim2SF at 1 4. rewrite Hnan.
  split; [reflexivity|]. unfold SFltb. destruct (Prim2SF x); reflexivity.
Qed.

(** X1. [get_level_description] and [gap_color] answer on every double.  A
    negative score is Non-existent and a score above 4 is Managed/Mature; a
    gap above 4 is in the highest-severity bucket.  A NaN fails every
    comparison and falls through to the last branch: as a score it is
    labelled Managed/Mature, as a gap it gets the lowest-severity colour.
    The mean of an empty sequence is such a NaN. *)
Theorem labels_outside_the_scale (s : float) :
  ((s <? 0)%float = true → get_level_description s = "Non-existent"%string)
  ∧ ((4 <? s)%float = true →
       get_level_description s = "Managed/Mature"%string
       ∧ gap_color s = "#d73027"%string)
  ∧ (is_nan s = true →
       get_level_description s = "Managed/Mature"%string
       ∧ gap_color s = "#d9ef8b"%string)
  ∧ is_nan (np_mean []) = true.
Proof.
  split_and!.
  - intros Hneg. unfold get_level_description.
    by rewrite (ltb_cut_mono s 0 0.5 eq_refl Hneg).
  - intros Hbig. pose proof (ltb_leb _ _ Hbig) as Hle. split.
    + unfold get_level_description.
      by rewrite (geb_cut_not_below s 0.5 4 eq_refl Hle),
        (geb_cut_not_below s 1.5 4 eq_refl Hle),
        (geb_cut_not_below s 2.5 4 eq_refl Hle),
        (geb_cut_not_below s 3.5 4 eq_refl Hle).
    + unfold gap_color.
      assert (H25 : (2.5 <? s)%float = true); [|by rewrite H25].
      destruct (2.5 <? s)%float eqn:E; [reflexivity|].
      assert (Hs : (s <=? s)%float = true) by exact (leb_ordered_r _ _ Hle).
      pose proof (not_ltb_leb s 2.5 Hs eq_refl E) as Hs25.
      pose proof (ltb_leb_trans _ _ _ Hbig Hs25) as Habs. discriminate Habs.
  - intros Hnan. split.
    + unfold get_level_description.
      by rewrite !(proj1 (nan_ltb s _ Hnan)).
    + unfold gap_color. by rewrite !(proj2 (nan_ltb s _ Hnan)).
  - reflexivity.
Qed.

Lemma labels_outside_the_scale_witness :
  get_level_description (-1.5) = "Non-existent"%string
  ∧ gap_color 4.5 = "#d73027"%string
  ∧ gap_color nan = "#d9ef8b"%string.
Proof.
  destruct (labels_outside_the_scale (-1.5)) as (Hneg & _).
  destruct (labels_outside_the_scale 4.5) as (_ & Hbig & _).
  destruct (labels_outside_the_scale nan) as (_ & _ & Hnan & _).
  split_and!.
  - apply Hneg. reflexivity.
  - apply Hbig. reflexivity.
  - apply Hnan. reflexivity.
Defined.

(** X2. The description of a score is the entry of [MATURITY_LEVELS] for the
    nearest whole level, halves going up: for every key [n] of the table and
    every score [s] with [n - 0.5 <= s < n + 0.5], the description of [s] is
    the label stored for [n]. *)
Theorem level_description_is_nearest_level (n : Z) (label : string)
    (x s : float) :
  MATURITY_LEVELS !! n = Some label → float_of_int n = Ret x →
  (x - 0.5 <=? s)%float = true → (s <? x + 0.5)%float = true →
  get_level_description s = label.
Proof.
  unfold MATURITY_LEVELS. intros Hn.
  repeat (apply lookup_insert_Some in Hn as [[<- <-]|[_ Hn]]);
    try (apply lookup_singleton_Some in Hn as [<- <-]);
    intros Hx; vm_compute in Hx; injection Hx as <-;
    intros Hlo Hhi; vm_compute in Hlo; vm_compute in Hhi;
    unfold get_level_description.
  - by rewrite Hhi.
  - by rewrite (leb_not_ltb _ _ Hlo), Hhi.
  - by rewrite (geb_cut_not_below s 0.5 1.5 eq_refl Hlo),
      (leb_not_ltb _ _ Hlo), Hhi.
  - by rewrite (geb_cut_not_below s 0.5 2.5 eq_refl Hlo),
      (geb_cut_not_below s 1.5 2.5 eq_refl Hlo), (leb_not_ltb _ _ Hlo), Hhi.
  - by rewrite (geb_cut_not_below s 0.5 3.5 eq_refl Hlo),
      (geb_cut_not_below s 1.5 3.5 eq_refl Hlo),
      (geb_cut_not_below s 2.5 3.5 eq_refl Hlo), (leb_not_ltb _ _ Hlo).
Qed.

Lemma level_description_is_nearest_level_witness :
  get_level_description 2.6 = "Defined"%string.
Proof.
  apply (level_description_is_nearest_level 3 "Defined" 3 2.6); reflexivity.
Defined.

(* ===================================================================== *)
(** ** The detail modal *)
(* ===================================================================== *)

(** X3. The card of a dimension with a level that is a number shows that
    level and colours it by the bands below 1, from 1 to below 2, from 2 to
    below 3 and from 3 up: danger, warning, info and success; the class of
    the card carries the same colour. *)
Theorem dimension_card_color_bands (dimension : string)
    (data : dimension_details) (s : float) :
  level data = Some s → (s <=? s)%float = true →
  ∃ color text items refs,
    create_dimension_card dimension data
    = Card dimension s color ("h-100 bg-" ++ color ++ " bg-opacity-10")
        text items refs
    ∧ (color = "danger"%string ↔ (s <? 1)%float = true)
    ∧ (color = "warning"%string
         ↔ (1 <=? s)%float = true ∧ (s <? 2)%float = true)
    ∧ (color = "info"%string
         ↔ (2 <=? s)%float = true ∧ (s <? 3)%float = true)
    ∧ (color = "success"%string ↔ (3 <=? s)%float = true).
Proof.
  intros Hlevel Hs. unfold create_dimension_card, dict_is_empty.
  rewrite Hlevel. cbn [default from_option id].
  rewrite (leb_negb_ltb 1 s eq_refl Hs), (leb_negb_ltb 2 s eq_refl Hs),
    (leb_negb_ltb 3 s eq_refl Hs).
  pose proof (ltb_cut_mono s 1 2 eq_refl) as M1.
  pose proof (ltb_cut_mono s 2 3 eq_refl) as M2.
  destruct (s <? 1)%float eqn:E1, (s <? 2)%float eqn:E2,
    (s <? 3)%float eqn:E3; cbn [negb];
    try (pose proof (M1 eq_refl); discriminate);
    try (pose proof (M2 eq_refl); discriminate);
    match goal with |- context [Card _ _ ?c] => exists c end;
    do 3 eexists; (split; [reflexivity|]);
    repeat split; intros; try reflexivity; destruct_and?; congruence.
Qed.

Lemma dimension_card_color_bands_witness :
  ∃ text items refs,
    create_dimension_card "Technical Controls"
      (mk_dimension_details (Some 2.5%float) (Some "Partial"%string) None None)
    = Card "Technical Controls" 2.5 "info" "h-100 bg-info bg-opacity-10"
        text items refs.
Proof.
  destruct (dimension_card_color_bands "Technical Controls"
              (mk_dimension_details (Some 2.5%float) (Some "Partial"%string)
                 None None) 2.5 eq_refl eq_refl)
    as (color & text & items & refs & Hcard & _ & _ & Hinfo & _).
  assert (color = "info"%string) as -> by (apply Hinfo; split; reflexivity).
  exists text, items, refs. exact Hcard.
Defined.

(** [not data] holds of the empty dict only. *)
Lemma dict_is_empty_spec (data : dimension_details) :
  dict_is_empty data = true ↔ data = empty_dict.
Proof.
  unfold dict_is_empty, empty_dict.
  destruct data as [[s|] [text|] [items|] [refs|]]; cbn; split; congruence.
Qed.

(** The card of a dict that is not empty. *)
Lemma dimension_card_of_nonempty (dimension : string) (data : dimension_details) :
  dict_is_empty data = false →
  ∃ color class,
    create_dimension_card dimension data
    = Card dimension (default 0%float (level data)) color class
        (default ""%string (description data)) (default [] (evidence data))
        (String.concat ", " (default [] (references data))).
Proof.
  intros He. unfold create_dimension_card. rewrite He.
  repeat match goal with
    | |- context [if (?a <? ?b)%float then _ else _] => destruct (a <? b)%float
    end; by do 2 eexists.
Qed.

(** X4. The defaults of the card: the empty dict gives the empty [Div] and
    only the empty dict does; a dict without a level is shown at level 0 in
    the danger colour; absent description, evidence and references are
    shown empty. *)
Theorem dimension_card_defaults (dimension : string) (data : dimension_details) :
  (create_dimension_card dimension data = EmptyDiv ↔ data = empty_dict)
  ∧ (level data = None → data ≠ empty_dict →
     ∃ text items refs,
       create_dimension_card dimension data
       = Card dimension 0 "danger" "h-100 bg-danger bg-opacity-10"
           text items refs)
  ∧ (description data = None → evidence data = None →
     references data = None → ∀ s, level data = Some s →
     ∃ color class,
       create_dimension_card dimension data
       = Card dimension s color class "" [] "").
Proof.
  split_and!.
  - split.
    + intros Hcard. destruct (dict_is_empty data) eqn:He.
      * by apply dict_is_empty_spec.
      * destruct (dimension_card_of_nonempty dimension data He)
          as (color & class & Hc). congruence.
    + intros ->. reflexivity.
  - intros Hlevel Hne.
    assert (He : dict_is_empty data = false).
    { destruct (dict_is_empty data) eqn:He; [|reflexivity].
      by apply dict_is_empty_spec in He. }
    unfold create_dimension_card. rewrite He, Hlevel. by do 3 eexists.
  - intros Hd He Hr s Hlevel.
    assert (Hne : dict_is_empty data = false)
      by (unfold dict_is_empty; by rewrite Hlevel).
    destruct (dimension_card_of_nonempty dimension data Hne)
      as (color & class & ->).
    rewrite Hlevel, Hd, He, Hr. by exists color, class.
Qed.

Lemma dimension_card_defaults_witness :
  ∃ text items refs,
    create_dimension_card "Governance Enforcement"
      (mk_dimension_details None (Some "Guidelines"%string) None None)
    = Card "Governance Enforcement" 0 "danger" "h-100 bg-danger bg-opacity-10"
        text items refs.
Proof.
  apply (dimension_card_defaults "Governance Enforcement"
           (mk_dimension_details None (Some "Guidelines"%string) None None)).
  - reflexivity.
  - discriminate.
Defined.

(** The keys of [CELL_DETAILS] are the four categories. *)
Lemma cell_details_lookup_None (category : string) :
  category ∉ THREAT_CATEGORIES → CELL_DETAILS !! category = None.
Proof.
  unfold THREAT_CATEGORIES. rewrite !not_elem_of_cons. intros (?&?&?&?&_).
  unfold CELL_DETAILS. rewrite !lookup_insert_ne by congruence.
  apply lookup_singleton_ne. congruence.
Qed.

(** X5. The modal stays closed, with an empty title and an empty body, when
    the close button triggered the callback, when there is no click, and
    when the first clicked point is not one of the four categories; whether
    the modal was open and how often the close button was clicked play no
    part.  A click event without points raises [IndexError]. *)
Theorem toggle_modal_stays_closed (triggered : option string)
    (click_data : option (list string)) (close_clicks : option Z)
    (is_open : bool) :
  (triggered = Some "close-modal"%string →
     toggle_modal triggered click_data close_clicks is_open
     = Ret (false, NoTitle, NoBody))
  ∧ (click_data = None →
     toggle_modal triggered click_data close_clicks is_open
     = Ret (false, NoTitle, NoBody))
  ∧ (∀ category rest,
       click_data = Some (category :: rest) →
       category ∉ THREAT_CATEGORIES →
       toggle_modal triggered click_data close_clicks is_open
       = Ret (false, NoTitle, NoBody))
  ∧ (triggered ≠ Some "close-modal"%string → click_data = Some [] →
     toggle_modal triggered click_data close_clicks is_open
     = Raise IndexError).
Proof.
  unfold toggle_modal. split_and!.
  - intros ->. reflexivity.
  - intros ->. by case_decide.
  - intros category rest -> Hc. case_decide; [reflexivity|].
    cbn [lookup list_lookup]. by rewrite (cell_details_lookup_None _ Hc).
  - intros Ht ->. by rewrite decide_False.
Qed.

Lemma toggle_modal_stays_closed_witness :
  toggle_modal (Some "main-heatmap"%string) (Some ["Deepfakes"%string])
    (Some 3%Z) true
  = Ret (false, NoTitle, NoBody)
  ∧ toggle_modal None (Some []) None false = Raise IndexError.
Proof.
  split.
  - refine (proj1 (proj2 (proj2 (toggle_modal_stays_closed _ _ _ _)))
              "Deepfakes"%string [] eq_refl _).
    unfold THREAT_CATEGORIES. rewrite !not_elem_of_cons.
    repeat split; try discriminate. apply not_elem_of_nil.
  - apply toggle_modal_stays_closed; [discriminate | reflexivity].
Defined.

(** X6. A click on one of the four categories, unless the close button
    triggered the callback, opens the modal with the category as its title
    and one card per dimension, in the order of [DIMENSIONS]; no card is the
    empty [Div], and the level on each card is the 2025 base score of that
    category and dimension, whatever year and adjustment the heatmap shows.
    Only the first point of the click counts. *)
Theorem toggle_modal_opens (triggered : option string)
    (category : string) (rest : list string) (close_clicks : option Z)
    (is_open : bool) :
  triggered ≠ Some "close-modal"%string → category ∈ THREAT_CATEGORIES →
  ∃ text quote cards items,
    toggle_modal triggered (Some (category :: rest)) close_clicks is_open
    = Ret (true, Title category, Body text quote cards items)
    ∧ length cards = length DIMENSIONS
    ∧ (∀ j dim, DIMENSIONS !! j = Some dim →
         ∃ s color class body_text body_items refs,
           cards !! j = Some (Card dim s color class body_text body_items refs)
           ∧ base_row "2025" category ≫= (.!! j) = Some s).
Proof.
  intros Ht Hc. unfold toggle_modal. rewrite decide_False by exact Ht.
  cbn [lookup list_lookup].
  unfold THREAT_CATEGORIES in Hc.
  repeat (apply elem_of_cons in Hc as [->|Hc]);
    try (by apply elem_of_nil in Hc);
    do 4 eexists; (split; [vm_compute; reflexivity|]);
    (split; [reflexivity|]);
    intros j dim Hj; each_category j Hj;
    do 6 eexists; split; vm_compute; reflexivity.
Qed.

Lemma toggle_modal_opens_witness :
  ∃ text quote cards items s color class body_text body_items refs,
    toggle_modal (Some "main-heatmap"%string)
      (Some ["Political Integrity"%string]) None false
    = Ret (true, Title "Political Integrity",
           Body text quote cards items)
    ∧ cards !! 1 = Some (Card "Technical Controls" s color class
                           body_text body_items refs)
    ∧ base_row "2025" "Political Integrity" ≫= (.!! 1) = Some s.
Proof.
  destruct (toggle_modal_opens (Some "main-heatmap"%string)
              "Political Integrity" [] None false)
    as (text & quote & cards & items & Hopen & _ & Hcards).
  - discriminate.
  - unfold THREAT_CATEGORIES. rewrite !elem_of_cons. auto.
  - destruct (Hcards 1 "Technical Controls"%string eq_refl)
      as (s & color & class & body_text & body_items & refs & Hcard & Hbase).
    exists text, quote, cards, items, s, color, class, body_text, body_items,
      refs. auto.
Defined.

(* ===================================================================== *)
(** ** Runs after earlier calls *)
(* ===================================================================== *)

Section Relocation.
Context (k : heap).

Lemma fresh_relocated r1 r2 : fresh k r1 r2 → relocated k r1 r2.
Proof. intros H. right. exact H. Qed.

Lemma heaps_rel_lookup h1 h2 r1 r2 :
  heaps_rel k h1 h2 → relocated k r1 r2 → h1 !! r1 = h2 !! r2.
Proof.
  intros (n & -> & ->) [[Hlt ->]|[Hge ->]].
  - rewrite !lookup_app_l by assumption. reflexivity.
  - rewrite lookup_app_r by assumption.
    rewrite lookup_app_r by lia. rewrite lookup_app_r by lia.
    f_equal. lia.
Qed.

Lemma heaps_rel_length h1 h2 :
  heaps_rel k h1 h2 → fresh k (length h1) (length h2).
Proof.
  intros (n & -> & ->). unfold fresh. rewrite !length_app. lia.
Qed.

Lemma heaps_rel_alloc h1 h2 l :
  heaps_rel k h1 h2 → heaps_rel k (h1 ++ [l]) (h2 ++ [l]).
Proof.
  intros (n & -> & ->). exists (n ++ [l]). by rewrite <- !(assoc_L (++)).
Qed.

Lemma heaps_rel_insert h1 h2 r1 r2 l :
  heaps_rel k h1 h2 → fresh k r1 r2 →
  heaps_rel k (<[r1:=l]> h1) (<[r2:=l]> h2).
Proof.
  intros (n & -> & ->) [Hge ->].
  exists (<[r1 - length initial_heap := l]> n). split.
  - by rewrite insert_app_r_alt.
  - rewrite insert_app_r_alt by lia. rewrite insert_app_r_alt by lia.
    do 3 f_equal. lia.
Qed.

Lemma sim_ret {A B} (Q : A → B → Prop) a b : Q a b → sim k Q (mret a) (mret b).
Proof. intros HQ h1 h2 Hh. split; [by constructor | exact Hh]. Qed.

Lemma sim_bind {A B A' B'} (Q : A → B → Prop) (Q' : A' → B' → Prop)
    (m1 : M A) (m2 : M B) (f1 : A → M A') (f2 : B → M B') :
  sim k Q m1 m2 → (∀ a b, Q a b → sim k Q' (f1 a) (f2 b)) →
  sim k Q' (m1 ≫= f1) (m2 ≫= f2).
Proof.
  intros Hm Hf h1 h2 Hh. rewrite !bind_unfold.
  destruct (Hm h1 h2 Hh) as [Hres Hheap].
  destruct (m1 h1) as [o1 h1'], (m2 h2) as [o2 h2']. cbn [fst snd] in *.
  destruct Hres as [a b HQ|e|].
  - exact (Hf a b HQ h1' h2' Hheap).
  - split; [constructor | exact Hheap].
  - split; [constructor | exact Hheap].
Qed.

Lemma sim_mapM {A B A' B'} (P : A → B → Prop) (Q : A' → B' → Prop)
    (f : A → M A') (g : B → M B') (l1 : list A) (l2 : list B) :
  (∀ x y, P x y → sim k Q (f x) (g y)) → Forall2 P l1 l2 →
  sim k (Forall2 Q) (mapM f l1) (mapM g l2).
Proof.
  intros Hfg Hl. induction Hl as [|x y l1 l2 Hxy Hl IH]; cbn [mapM].
  - apply sim_ret. constructor.
  - eapply sim_bind; [exact (Hfg x y Hxy)|]. intros a b Hab.
    eapply sim_bind; [exact IH|]. intros la lb Hlab.
    apply sim_ret. by constructor.
Qed.

Lemma sim_lift {A} (o : outcome A) : sim k eq (lift o) (lift o).
Proof.
  intros h1 h2 Hh. split; [|exact Hh]. cbn.
  destruct o; by constructor.
Qed.

Lemma sim_int_mul_float n x : sim k eq (int_mul_float n x) (int_mul_float n x).
Proof.
  unfold int_mul_float. eapply sim_bind; [apply sim_lift|].
  intros a ? <-. by apply sim_ret.
Qed.

Lemma sim_dict_getitem (d : gmap string ref) (key : string) :
  map_Forall (λ _ r, r < length initial_heap) d →
  sim k (relocated k) (dict_getitem d key) (dict_getitem d key).
Proof.
  intros Hd. unfold dict_getitem. destruct (d !! key) as [r|] eqn:Hr.
  - apply sim_ret. left. split; [exact (Hd _ _ Hr) | reflexivity].
  - intros h1 h2 Hh. split; [constructor | exact Hh].
Qed.

Lemma sim_list_copy r1 r2 :
  relocated k r1 r2 → sim k (fresh k) (list_copy r1) (list_copy r2).
Proof.
  intros Hr h1 h2 Hh. unfold list_copy.
  rewrite <- (heaps_rel_lookup h1 h2 r1 r2 Hh Hr).
  destruct (h1 !! r1) as [l|]; cbn [fst snd].
  - split; [constructor; by apply heaps_rel_length | by apply heaps_rel_alloc].
  - split; [constructor | exact Hh].
Qed.

Lemma sim_list_getitem r1 r2 i :
  relocated k r1 r2 → sim k eq (list_getitem r1 i) (list_getitem r2 i).
Proof.
  intros Hr h1 h2 Hh. unfold list_getitem.
  rewrite <- (heaps_rel_lookup h1 h2 r1 r2 Hh Hr).
  destruct (h1 !! r1) as [l|]; [destruct (l !! i)|]; cbn [fst snd];
    (split; [by constructor | exact Hh]).
Qed.

Lemma sim_list_values r1 r2 :
  relocated k r1 r2 → sim k eq (list_values r1) (list_values r2).
Proof.
  intros Hr h1 h2 Hh. unfold list_values.
  rewrite <- (heaps_rel_lookup h1 h2 r1 r2 Hh Hr).
  destruct (h1 !! r1) as [l|]; cbn [fst snd];
    (split; [by constructor | exact Hh]).
Qed.

Lemma sim_list_setitem r1 r2 i v :
  fresh k r1 r2 → sim k eq (list_setitem r1 i v) (list_setitem r2 i v).
Proof.
  intros Hr h1 h2 Hh. unfold list_setitem.
  rewrite <- (heaps_rel_lookup h1 h2 r1 r2 Hh (fresh_relocated _ _ Hr)).
  destruct (h1 !! r1) as [l|]; [destruct (decide (i < length l))|];
    cbn [fst snd]; (split; [by constructor|]); try exact Hh.
  by apply heaps_rel_insert.
Qed.

End Relocation.

Section RelocationEngine.
Context (k : heap).

Lemma sim_apply_governance_adjustment adj r1 r2 :
  fresh k r1 r2 →
  sim k eq (apply_governance_adjustment adj r1)
           (apply_governance_adjustment adj r2).
Proof.
  intros Hr. pose proof (fresh_relocated k _ _ Hr) as Hr'.
  unfold apply_governance_adjustment.
  destruct (adj >? 0)%Z; [|by apply sim_ret].
  eapply sim_bind; [by apply sim_list_getitem|]. intros g ? <-.
  eapply sim_bind; [apply sim_int_mul_float|]. intros dg ? <-.
  eapply sim_bind; [by apply sim_list_setitem|]. intros _ _ _.
  eapply sim_bind; [by apply sim_list_getitem|]. intros s ? <-.
  eapply sim_bind; [apply sim_int_mul_float|]. intros ds ? <-.
  by apply sim_list_setitem.
Qed.

Lemma sim_hover_cell category r1 r2 cell :
  relocated k r1 r2 →
  sim k eq (hover_cell category r1 cell) (hover_cell category r2 cell).
Proof.
  intros Hr. destruct cell as [i dim]. cbn.
  eapply sim_bind; [by apply sim_list_getitem|]. intros level ? <-.
  by apply sim_ret.
Qed.

Lemma Forall2_eq_refl {A} (l : list A) : Forall2 eq l l.
Proof. induction l; by constructor. Qed.

Lemma Forall2_eq {A} (l1 l2 : list A) : Forall2 eq l1 l2 → l1 = l2.
Proof. induction 1; congruence. Qed.

Lemma sim_mapM_same {A A'} (f g : A → M A') (l : list A) :
  (∀ x, sim k eq (f x) (g x)) → sim k eq (mapM f l) (mapM g l).
Proof.
  intros Hfg h1 h2 Hh.
  destruct (sim_mapM k eq eq f g l l) with (h1 := h1) (h2 := h2)
    as [Hres Hheap]; try assumption.
  - intros x ? <-. apply Hfg.
  - apply Forall2_eq_refl.
  - split; [|exact Hheap]. destruct Hres as [a b Hab| |]; constructor.
    by apply Forall2_eq.
Qed.

Lemma sim_heatmap_row data adj category :
  map_Forall (λ _ r, r < length initial_heap) data →
  sim k (row_rel k) (heatmap_row data adj category) (heatmap_row data adj category).
Proof.
  intros Hd. unfold heatmap_row.
  eapply sim_bind; [by apply sim_dict_getitem|]. intros s1 s2 Hs.
  eapply sim_bind; [by apply sim_list_copy|]. intros r1 r2 Hr.
  pose proof (fresh_relocated k _ _ Hr) as Hr'.
  eapply sim_bind; [by apply sim_apply_governance_adjustment|]. intros _ _ _.
  eapply sim_bind.
  { apply sim_mapM_same. intros cell. by apply sim_hover_cell. }
  intros hov ? <-. apply sim_ret. split; [exact Hr' | reflexivity].
Qed.

Lemma tables_in_initial_heap year :
  map_Forall (λ _ r, r < length initial_heap) (get_maturity_data year).
Proof.
  intros category r Hr. apply lookup_lt_is_Some.
  by eapply table_refs_allocated.
Qed.

Lemma sim_create_heatmap year adj :
  sim k eq (create_heatmap year adj) (create_heatmap year adj).
Proof.
  unfold create_heatmap.
  eapply sim_bind.
  { apply (sim_mapM k eq (row_rel k)); [|apply Forall2_eq_refl].
    intros category ? <-. apply sim_heatmap_row, tables_in_initial_heap. }
  intros rows1 rows2 Hrows.
  eapply sim_bind.
  { apply (sim_mapM k (relocated k) eq list_values list_values
             rows1.*1 rows2.*1).
    - intros r1 r2 Hr. by apply sim_list_values.
    - apply Forall2_fmap_2. eapply Forall2_impl; [exact Hrows|].
      intros p1 p2 [Hp _]. exact Hp. }
  intros z1 z2 Hz. apply sim_ret.
  f_equal; [by apply Forall2_eq|].
  apply Forall2_eq, Forall2_fmap_2. eapply Forall2_impl; [exact Hrows|].
  intros p1 p2 [_ Hp]. exact Hp.
Qed.

Lemma sim_gap_row year cat :
  sim k eq (gap_row (get_maturity_data year) cat)
           (gap_row (get_maturity_data year) cat).
Proof.
  unfold gap_row, list_slice_from.
  eapply sim_bind; [apply sim_dict_getitem, tables_in_initial_heap|].
  intros r1 r2 Hr.
  eapply sim_bind; [by apply sim_list_getitem|]. intros t ? <-.
  eapply sim_bind; [apply sim_dict_getitem, tables_in_initial_heap|].
  intros r1' r2' Hr'.
  eapply (sim_bind k eq).
  { eapply sim_bind; [by apply sim_list_values|]. intros l ? <-.
    by apply sim_ret. }
  intros p ? <-. by apply sim_ret.
Qed.

Lemma sim_create_gap_analysis_chart year :
  sim k eq (create_gap_analysis_chart year) (create_gap_analysis_chart year).
Proof.
  unfold create_gap_analysis_chart.
  eapply sim_bind; [apply sim_mapM_same; intros cat; apply sim_gap_row|].
  intros rows ? <-. by apply sim_ret.
Qed.

Lemma sim_create_radar_chart category year :
  sim k eq (create_radar_chart category year) (create_radar_chart category year).
Proof.
  unfold create_radar_chart. case_decide; [by apply sim_ret|].
  eapply sim_bind; [apply sim_dict_getitem, tables_in_initial_heap|].
  intros r1 r2 Hr.
  eapply sim_bind; [by apply sim_list_values|]. intros vs ? <-.
  eapply sim_bind; [by apply sim_list_getitem|]. intros v0 ? <-.
  by apply sim_ret.
Qed.

Lemma sim_column year i :
  sim k eq (column (get_maturity_data year) i) (column (get_maturity_data year) i).
Proof.
  unfold column. apply sim_mapM_same. intros cat.
  eapply sim_bind; [apply sim_dict_getitem, tables_in_initial_heap|].
  intros r1 r2 Hr. by apply sim_list_getitem.
Qed.

Lemma sim_update_charts year adj :
  sim k eq (update_charts year adj) (update_charts year adj).
Proof.
  unfold update_charts.
  eapply sim_bind; [apply sim_create_heatmap|]. intros fig ? <-.
  eapply sim_bind; [apply sim_create_gap_analysis_chart|]. intros chart ? <-.
  eapply sim_bind; [apply sim_column|]. intros threat ? <-.
  eapply sim_bind; [apply sim_column|]. intros tech ? <-.
  eapply sim_bind; [apply sim_column|]. intros gov ? <-.
  eapply sim_bind; [apply sim_column|]. intros stake ? <-.
  by apply sim_ret.
Qed.

Lemma sim_run {A} (m : M A) :
  sim k eq m m → (m (initial_heap ++ k)).1 = run m.
Proof.
  intros Hm. destruct (Hm initial_heap (initial_heap ++ k)) as [Hres _].
  { exists []. by rewrite !app_nil_r. }
  unfold run. destruct Hres; congruence.
Qed.

End RelocationEngine.

(** X7. No computation of the engine depends on what was computed before:
    after any sequence of calls, with any arguments, the heatmap, the gap
    analysis, the radar chart and both callbacks return, or raise, exactly
    what they return or raise at start-up for the same arguments. *)
Theorem engine_results_reproducible (cs : list engine_call)
    (year category : string) (adj : Z) :
  let h := heap_after_all cs initial_heap in
  (create_heatmap year adj h).1 = run (create_heatmap year adj)
  ∧ (create_gap_analysis_chart year h).1 = run (create_gap_analysis_chart year)
  ∧ (create_radar_chart category year h).1 = run (create_radar_chart category year)
  ∧ (update_charts year adj h).1 = run (update_charts year adj)
  ∧ (update_radar category year h).1 = run (update_radar category year).
Proof.
  destruct (heap_after_all_prefix cs initial_heap) as [k Hk].
  cbv zeta. rewrite Hk. unfold update_radar. split_and!; apply sim_run.
  - apply sim_create_heatmap.
  - apply sim_create_gap_analysis_chart.
  - apply sim_create_radar_chart.
  - apply sim_update_charts.
  - apply sim_create_radar_chart.
Qed.

(* ===================================================================== *)
(** ** The heatmap under every adjustment *)
(* ===================================================================== *)

(** A computation that compares equal with itself across every pair of
    related heaps returns, after any sequence of calls, what it returns at
    start-up. *)
Lemma run_after_calls {A : Type} (m : M A) (cs : list engine_call) :
  (∀ k, sim k eq m m) → (m (heap_after_all cs initial_heap)).1 = run m.
Proof.
  intros Hm. destruct (heap_after_all_prefix cs initial_heap) as [k ->].
  apply sim_run, Hm.
Qed.

(** The guard of line 342 is false for every adjustment that is not
    positive. *)
Lemma create_heatmap_nonpositive (year : string) (adj : Z) (h : heap) :
  (adj ≤ 0)%Z → create_heatmap year adj h = create_heatmap year 0 h.
Proof.
  intros Hadj. unfold create_heatmap, heatmap_row, apply_governance_adjustment.
  assert (Hguard : (adj >? 0)%Z = false)
    by (rewrite Z.gtb_ltb; apply Z.ltb_ge; exact Hadj).
  rewrite Hguard. reflexivity.
Qed.

(** The heatmap of any year with adjustment 0 is the base matrix of the
    table that the year lookup returns. *)
Lemma adjusted_matrix_zero (year : string) :
  adjusted_matrix year 0 = base_matrix year ∧ is_Some (base_matrix year).
Proof.
  unfold adjusted_matrix, base_matrix, base_row, stored_row, run,
    create_heatmap, get_maturity_data.
  repeat case_decide; split; try (eexists; vm_compute; reflexivity);
    vm_compute; reflexivity.
Qed.

(** X8. An adjustment of zero or below changes nothing: for every year, the
    heatmap is the one of adjustment 0 and its matrix is the base matrix of
    the year.  A negative adjustment does not lower any score. *)
Theorem heatmap_ignores_nonpositive_adjustment (year : string) (adj : Z) :
  (adj ≤ 0)%Z →
  (∀ h, create_heatmap year adj h = create_heatmap year 0 h)
  ∧ adjusted_matrix year adj = base_matrix year
  ∧ is_Some (base_matrix year).
Proof.
  intros Hadj. split_and!.
  - intros h. by apply create_heatmap_nonpositive.
  - unfold adjusted_matrix, run.
    rewrite (create_heatmap_nonpositive year adj initial_heap Hadj).
    apply adjusted_matrix_zero.
  - apply adjusted_matrix_zero.
Qed.

Lemma heatmap_ignores_nonpositive_adjustment_witness :
  adjusted_matrix "2026" (-3) = base_matrix "2026".
Proof.
  apply (heatmap_ignores_nonpositive_adjustment "2026" (-3)). lia.
Defined.

(** Run the heatmap at start-up for an arbitrary year and adjustment: the
    year is one of four cases, the adjustment is not positive, or positive
    and too large for a double, or positive with a double [a]. *)
Ltac heatmap_cases adj :=
  unfold adjusted_matrix, run, create_heatmap, get_maturity_data, heatmap_row,
    apply_governance_adjustment, int_mul_float;
  destruct (adj >? 0)%Z eqn:?;
    [destruct (float_of_int adj) as [?a|?e] eqn:?|];
  repeat case_decide.

(** The clamp written out, as evaluation leaves it, is at most 4. *)
Ltac clamp_le_cap :=
  lazymatch goal with
  | |- ((if (?x <? 4)%float then ?x else 4%float) <=? 4)%float = true =>
      let E := fresh "E" in
      destruct (x <? 4)%float eqn:E; [exact (ltb_leb _ _ E) | reflexivity]
  | |- _ => reflexivity
  end.

(** X9. Under every adjustment for which the heatmap returns, however
    large, every score of its matrix is at most 4.0, and the threat and
    technical-controls scores of every row are those of the base row. *)
Theorem heatmap_clamps_every_adjustment (year : string) (adj : Z)
    (m : list (list float)) :
  adjusted_matrix year adj = Some m →
  (∀ i j v, m !! i ≫= (.!! j) = Some v → (v <=? 4.0)%float = true)
  ∧ (∀ i category row,
       THREAT_CATEGORIES !! i = Some category → m !! i = Some row →
       ∃ base, base_row year category = Some base ∧ take 2 row = take 2 base).
Proof.
  intros Hm. split.
  - revert Hm. heatmap_cases adj; vm_compute; try discriminate;
      intros [= <-] i j v Hv;
      destruct i as [|[|[|[|i]]]]; try discriminate Hv;
      destruct j as [|[|[|[|j]]]]; try discriminate Hv;
      injection Hv as <-; clamp_le_cap.
  - intros i category row Hi Hrow. each_category i Hi;
      revert Hm Hrow; unfold base_row, stored_row;
      heatmap_cases adj; vm_compute; try discriminate;
      intros [= <-] [= <-]; eexists; split; reflexivity.
Qed.

Lemma heatmap_clamps_every_adjustment_witness :
  ∃ m v, adjusted_matrix "2025" 1000 = Some m
         ∧ m !! 2 ≫= (.!! 3) = Some v ∧ (v <=? 4.0)%float = true.
Proof.
  assert (Hm : ∃ m, adjusted_matrix "2025" 1000 = Some m)
    by (eexists; vm_compute; reflexivity).
  destruct Hm as [m Hm].
  assert (Hv : ∃ v, m !! 2 ≫= (.!! 3) = Some v).
  { revert Hm. vm_compute. intros [= <-]. eexists. reflexivity. }
  destruct Hv as [v Hv]. exists m, v. split_and!; try assumption.
  exact (proj1 (heatmap_clamps_every_adjustment "2025" 1000 m Hm) 2 3 v Hv).
Defined.

(** X10. Every heatmap that is returned is a grid of four rows of four
    scores, and the hover cell at row [i] and column [j] names the [i]-th
    category and the [j]-th dimension: the matrix lines up with the axes
    [y=THREAT_CATEGORIES] and [x=DIMENSIONS]. *)
Theorem heatmap_grid_matches_axes (year : string) (adj : Z) (fig : heatmap) :
  run (create_heatmap year adj) = Done (Ret fig) →
  length (z_values fig) = length THREAT_CATEGORIES
  ∧ Forall (λ row, length row = length DIMENSIONS) (z_values fig)
  ∧ map (map (λ cell, (hover_category cell, hover_dim cell))) (hover_texts fig)
    = map (λ category, map (pair category) DIMENSIONS) THREAT_CATEGORIES.
Proof.
  heatmap_cases adj; vm_compute; try discriminate; intros [= <-];
    split_and!; try reflexivity; repeat constructor.
Qed.

Lemma heatmap_grid_matches_axes_witness :
  ∃ fig, run (create_heatmap "2027" 2) = Done (Ret fig)
         ∧ length (z_values fig) = 4.
Proof.
  assert (Hfig : ∃ fig, run (create_heatmap "2027" 2) = Done (Ret fig))
    by (eexists; vm_compute; reflexivity).
  destruct Hfig as [fig Hfig]. exists fig. split; [exact Hfig|].
  exact (proj1 (heatmap_grid_matches_axes "2027" 2 fig Hfig)).
Defined.

(* ===================================================================== *)
(** ** What the engine never raises *)
(* ===================================================================== *)

Lemma gap_chart_returns (year : string) :
  ∃ chart, run (create_gap_analysis_chart year) = Done (Ret chart).
Proof.
  unfold run, create_gap_analysis_chart, get_maturity_data.
  repeat case_decide; eexists; vm_compute; reflexivity.
Qed.

Lemma radar_chart_returns (category year : string) :
  ∃ fig, run (create_radar_chart category year) = Done (Ret fig).
Proof.
  destruct (decide (category ∈ THREAT_CATEGORIES)) as [Hc|Hc].
  - unfold THREAT_CATEGORIES in Hc.
    repeat (apply elem_of_cons in Hc as [->|Hc]);
      try (by apply elem_of_nil in Hc);
      unfold run, create_radar_chart, get_maturity_data;
      repeat case_decide; eexists; vm_compute; reflexivity.
  - exists EmptyFigure. unfold run, create_radar_chart.
    by rewrite decide_True by (by apply table_lookup_None).
Qed.

(** The only exception of the conversion of an [int] is [OverflowError]. *)
Lemma float_of_int_raises (n : Z) (e : exn) :
  float_of_int n = Raise e → e = OverflowError.
Proof. unfold float_of_int. destruct (is_infinity _); congruence. Qed.

Lemma heatmap_returns_or_overflows (year : string) (adj : Z) :
  (∃ fig, run (create_heatmap year adj) = Done (Ret fig))
  ∨ ((0 < adj)%Z ∧ float_of_int adj = Raise OverflowError
     ∧ run (create_heatmap year adj) = Done (Raise OverflowError)).
Proof.
  destruct (adj >? 0)%Z eqn:Hpos; [destruct (float_of_int adj) as [a|e] eqn:Hf|].
  - left. revert Hpos Hf. heatmap_cases adj; try discriminate;
      intros _ _; eexists; vm_compute; reflexivity.
  - right. apply float_of_int_raises in Hf as He. subst e.
    split; [by apply Z.gtb_lt|]. split; [reflexivity|].
    revert Hpos Hf. heatmap_cases adj; try discriminate;
      intros _ [= ->]; vm_compute; reflexivity.
  - left. revert Hpos. heatmap_cases adj; try discriminate;
      intros _; eexists; vm_compute; reflexivity.
Qed.

Lemma update_charts_returns_or_overflows (year : string) (adj : Z) :
  (∃ out, run (update_charts year adj) = Done (Ret out))
  ∨ ((0 < adj)%Z ∧ float_of_int adj = Raise OverflowError
     ∧ run (update_charts year adj) = Done (Raise OverflowError)).
Proof.
  destruct (heatmap_returns_or_overflows year adj)
    as [[fig Hfig]|(Hpos & Hfloat & Hrun)].
  - left. revert Hfig. unfold run, update_charts. rewrite bind_unfold.
    pose proof (grows_create_heatmap year adj initial_heap) as [k Hk].
    destruct (create_heatmap year adj initial_heap) as [o h1].
    cbn [fst snd] in *. subst h1. intros ->.
    cbv beta. rewrite bind_unfold, gap_chart_frame.
    destruct (gap_chart_returns year) as [chart Hchart].
    unfold run in Hchart. rewrite Hchart.
    unfold column, get_maturity_data.
    repeat case_decide; eexists; vm_compute; reflexivity.
  - right. split_and!; try assumption.
    revert Hrun. unfold run, update_charts. rewrite bind_unfold.
    destruct (create_heatmap year adj initial_heap) as [o h1].
    cbn [fst]. intros ->. reflexivity.
Qed.

(** X11. In every state the engine can reach, for every year, category and
    adjustment, no computation raises [KeyError] or [IndexError] or uses a
    reference to no object: the gap analysis and the radar chart always
    return, and the heatmap and the callback return unless the adjustment is
    positive and too large for a double, in which case they raise
    [OverflowError]. *)
Theorem engine_raises_overflow_only (cs : list engine_call)
    (year category : string) (adj : Z) :
  let h := heap_after_all cs initial_heap in
  (∃ chart, (create_gap_analysis_chart year h).1 = Done (Ret chart))
  ∧ (∃ fig, (create_radar_chart category year h).1 = Done (Ret fig))
  ∧ ((∃ fig, (create_heatmap year adj h).1 = Done (Ret fig))
     ∨ ((0 < adj)%Z ∧ float_of_int adj = Raise OverflowError
        ∧ (create_heatmap year adj h).1 = Done (Raise OverflowError)))
  ∧ ((∃ out, (update_charts year adj h).1 = Done (Ret out))
     ∨ ((0 < adj)%Z ∧ float_of_int adj = Raise OverflowError
        ∧ (update_charts year adj h).1 = Done (Raise OverflowError)))
  ∧ float_of_int (2 ^ 1024) = Raise OverflowError.
Proof.
  cbv zeta.
  rewrite (run_after_calls _ cs (λ k, sim_create_gap_analysis_chart k year)),
    (run_after_calls _ cs (λ k, sim_create_radar_chart k category year)),
    (run_after_calls _ cs (λ k, sim_create_heatmap k year adj)),
    (run_after_calls _ cs (λ k, sim_update_charts k year adj)).
  split_and!.
  - apply gap_chart_returns.
  - apply radar_chart_returns.
  - apply heatmap_returns_or_overflows.
  - apply update_charts_returns_or_overflows.
  - vm_compute. reflexivity.
Qed.

(* ===================================================================== *)
(** ** The radar chart, the gap chart and the tables in every state *)
(* ===================================================================== *)

(** A key of a table cannot be absent from it. *)
Ltac absent_key :=
  match goal with
  | H : _ !! _ = None |- _ => vm_compute in H; discriminate H
  end.

(** X12. For each of the four categories and every year, in every state the
    engine can reach, the radar chart is the closed polygon of the base row
    of the category: its four base scores followed by the first one again,
    over the four dimensions followed by the first one again.  No adjustment
    given to an earlier heatmap shows in it. *)
Theorem radar_chart_is_closed_base_row (cs : list engine_call)
    (category year : string) :
  category ∈ THREAT_CATEGORIES →
  ∃ row v0,
    base_row year category = Some row
    ∧ length row = length DIMENSIONS
    ∧ row !! 0 = Some v0
    ∧ (create_radar_chart category year (heap_after_all cs initial_heap)).1
      = Done (Ret (RadarFigure (row ++ [v0])
                     (DIMENSIONS ++ ["Threat Maturity"%string]))).
Proof.
  intros Hc.
  rewrite (run_after_calls _ cs (λ k, sim_create_radar_chart k category year)).
  unfold THREAT_CATEGORIES in Hc.
  repeat (apply elem_of_cons in Hc as [->|Hc]);
    try (by apply elem_of_nil in Hc);
    unfold base_row, stored_row, run, create_radar_chart, get_maturity_data;
    repeat case_decide; try absent_key;
    do 2 eexists; split_and!; vm_compute; reflexivity.
Qed.

Lemma radar_chart_is_closed_base_row_witness :
  (create_radar_chart "Privacy" "2026"
     (heap_after_all [CallHeatmap "2026" 4] initial_heap)).1
  = Done (Ret (RadarFigure [4.0; 2.5; 2.5; 2.5; 4.0]%float
                 (DIMENSIONS ++ ["Threat Maturity"%string]))).
Proof.
  destruct (radar_chart_is_closed_base_row [CallHeatmap "2026" 4]
              "Privacy" "2026")
    as (row & v0 & Hrow & _ & Hv0 & Hradar).
  - unfold THREAT_CATEGORIES. rewrite !elem_of_cons. auto.
  - rewrite Hradar. vm_compute in Hrow. injection Hrow as <-.
    injection Hv0 as <-. reflexivity.
Defined.

(** X13. The table of every year, whatever the year string, has the four
    categories as its keys and nothing else, and in every state the engine
    can reach it stores for each of them a row of four scores, one per
    dimension, each between 0 and 4. *)
Theorem tables_are_well_formed (cs : list engine_call)
    (year category : string) :
  (category ∉ THREAT_CATEGORIES → get_maturity_data year !! category = None)
  ∧ (category ∈ THREAT_CATEGORIES →
     ∃ row,
       stored_row (heap_after_all cs initial_heap) year category = Some row
       ∧ length row = length DIMENSIONS
       ∧ Forall (λ v, (0 <=? v)%float = true ∧ (v <=? 4)%float = true) row).
Proof.
  split; [apply table_lookup_None|]. intros Hc.
  assert (Hbase : ∃ row,
    base_row year category = Some row
    ∧ length row = length DIMENSIONS
    ∧ Forall (λ v, (0 <=? v)%float = true ∧ (v <=? 4)%float = true) row).
  { unfold THREAT_CATEGORIES in Hc.
    repeat (apply elem_of_cons in Hc as [->|Hc]);
      try (by apply elem_of_nil in Hc);
      unfold base_row, stored_row, get_maturity_data;
      repeat case_decide; eexists; split_and!;
      try (vm_compute; reflexivity); repeat constructor. }
  destruct Hbase as (row & Hrow & Hlen & Hrange).
  exists row. split_and!; try assumption.
  revert Hrow. unfold base_row, stored_row.
  destruct (get_maturity_data year !! category) as [r|]; [|discriminate].
  cbn [mbind option_bind]. intros Hr.
  exact (prefix_lookup_Some _ _ _ _ Hr (heap_after_all_prefix cs initial_heap)).
Qed.

Lemma tables_are_well_formed_witness :
  get_maturity_data "1999" !! "Phishing"%string = None
  ∧ ∃ row,
      stored_row (heap_after_all [CallUpdateCharts "2027" 4] initial_heap)
        "1999" "Privacy" = Some row
      ∧ length row = 4.
Proof.
  split.
  - apply (tables_are_well_formed [] "1999" "Phishing").
    unfold THREAT_CATEGORIES. rewrite !not_elem_of_cons.
    repeat split; try discriminate. apply not_elem_of_nil.
  - destruct (proj2 (tables_are_well_formed [CallUpdateCharts "2027" 4]
                       "1999" "Privacy")) as (row & Hrow & Hlen & _).
    + unfold THREAT_CATEGORIES. rewrite !elem_of_cons. auto 6.
    + exists row. split; assumption.
Defined.

(** X14. For every year, in every state the engine can reach, the gap chart
    has one bar per category, in the order of the categories; each gap is
    the threat level minus the average protection shown beside it, each
    colour is the colour of its gap, and every gap lies in the range from 0
    to 4 of the axis of the chart. *)
Theorem gap_chart_bars (cs : list engine_call) (year : string) :
  ∃ chart,
    (create_gap_analysis_chart year (heap_after_all cs initial_heap)).1
    = Done (Ret chart)
    ∧ categories chart = THREAT_CATEGORIES
    ∧ length (gaps chart) = length THREAT_CATEGORIES
    ∧ colors chart = gap_color <$> gaps chart
    ∧ gaps chart = (λ p : float * float, (p.1 - p.2)%float) <$> levels chart
    ∧ Forall (λ g, (0 <=? g)%float = true ∧ (g <=? 4)%float = true)
        (gaps chart).
Proof.
  rewrite (run_after_calls _ cs (λ k, sim_create_gap_analysis_chart k year)).
  unfold run, create_gap_analysis_chart, get_maturity_data.
  repeat case_decide; eexists; split_and!;
    try (vm_compute; reflexivity); repeat constructor.
Qed.

(* ===================================================================== *)
(** ** The controls *)
(* ===================================================================== *)

(** X15. Whatever the controls can send, the callbacks answer: for every
    year of the year selector, every position of the slider and every
    category of the radar selector, in every state the engine can reach, the
    year has a table of its own, [update_charts] returns its three outputs
    and [update_radar] returns a polygon, never the empty figure. *)
Theorem callbacks_answer_the_controls (cs : list engine_call)
    (year category : string) (adj : Z) :
  year ∈ YEAR_SELECTOR_VALUES → (SLIDER_MIN ≤ adj ≤ SLIDER_MAX)%Z →
  category ∈ RADAR_SELECTOR_VALUES →
  let h := heap_after_all cs initial_heap in
  supported_year year
  ∧ (∃ fig chart st, (update_charts year adj h).1 = Done (Ret (fig, chart, st)))
  ∧ (∃ values_closed dimensions_closed,
       (update_radar category year h).1
       = Done (Ret (RadarFigure values_closed dimensions_closed))).
Proof.
  intros Hy Ha Hc. cbv zeta. split_and!.
  - unfold YEAR_SELECTOR_VALUES in Hy. unfold supported_year.
    rewrite !elem_of_cons in Hy. destruct Hy as [?|[?|[?|Hy]]]; auto.
    by apply elem_of_nil in Hy.
  - rewrite (run_after_calls _ cs (λ k, sim_update_charts k year adj)).
    apply update_charts_returns. exact Ha.
  - unfold update_radar.
    rewrite (run_after_calls _ cs (λ k, sim_create_radar_chart k category year)).
    unfold RADAR_SELECTOR_VALUES, THREAT_CATEGORIES in Hc.
    repeat (apply elem_of_cons in Hc as [->|Hc]);
      try (by apply elem_of_nil in Hc);
      unfold run, create_radar_chart, get_maturity_data;
      repeat case_decide; try absent_key;
      do 2 eexists; vm_compute; reflexivity.
Qed.

Lemma callbacks_answer_the_controls_witness :
  ∃ fig chart st,
    (update_charts "2026" 4
       (heap_after_all [CallUpdateCharts "2025" 1] initial_heap)).1
    = Done (Ret (fig, chart, st)).
Proof.
  refine (proj1 (proj2 (callbacks_answer_the_controls
            [CallUpdateCharts "2025" 1] "2026" "Privacy" 4 _ _ _))).
  - unfold YEAR_SELECTOR_VALUES. rewrite !elem_of_cons. auto.
  - unfold SLIDER_MIN, SLIDER_MAX. lia.
  - unfold RADAR_SELECTOR_VALUES, THREAT_CATEGORIES.
    rewrite !elem_of_cons. auto 6.
Defined.

(** X16. A year other than "2025" is titled a projection, also when it has
    no table of its own: the heatmap of such a year carries the scores of
    the 2025 baseline under the title of a projection of that year. *)
Theorem unsupported_year_is_titled_projection (year : string) (adj : Z)
    (h : heap) :
  ¬ supported_year year →
  year_label year = (year ++ " Projection")%string
  ∧ year_label "2025" = "2025 Baseline"%string
  ∧ create_heatmap year adj h = create_heatmap "2025" adj h.
Proof.
  intros Hy. split_and!.
  - unfold year_label. rewrite decide_False; [reflexivity|].
    intros ->. apply Hy. left. reflexivity.
  - reflexivity.
  - unfold create_heatmap. by rewrite (get_maturity_data_default year Hy).
Qed.

Lemma unsupported_year_is_titled_projection_witness :
  year_label "2099" = "2099 Projection"%string
  ∧ create_heatmap "2099" 2 initial_heap = create_heatmap "2025" 2 initial_heap.
Proof.
  destruct (unsupported_year_is_titled_projection "2099" 2 initial_heap)
    as (Hlabel & _ & Hmap).
  - intros [H|[H|H]]; discriminate H.
  - split; [|exact Hmap]. rewrite Hlabel. reflexivity.
Defined.
